(** * The service Builder of eco-goinfra (package [service])

    A shallow embedding of the Builder of Kubernetes Services: the
    constructor [NewBuilder], the guard [validate], the cluster operations
    [Exists], [Create] and [Delete], the fluent mutators [WithNodePort],
    [WithOptions], [WithExternalTrafficPolicy], [WithAnnotation] and
    [WithIPFamily], and the helpers [DefineServicePort] and [isValidPort].

    Go pointers to a Builder are addresses into a store of Builders ([nil]
    is [None]), because the mutators hand pointers around and [WithOptions]
    can return another pointer than its receiver.  A [*corev1.Service] is
    modelled by the value it points to ([nil] is [None]).  A nil dereference
    is the outcome [Panic].  Logging through glog has no effect on the
    program and is left out, but the reads of [builder.Definition] made to
    build a log line are kept, since they can panic. *)

From Stdlib Require Import Ascii String ZArith List Bool Lia.
Import ListNotations.
Local Open Scope string_scope.
Local Open Scope Z_scope.

(** ** The resource: the part of corev1.Service the package reads or writes *)

(** map[string]string; a nil map is [None]. *)
Definition StringMap := option (list (string * string)).

(** An int32 is a [Z] in this range; the package only compares such values. *)
Definition int32 (z : Z) : Prop := - 2 ^ 31 <= z < 2 ^ 31.

Definition Protocol := string.
Definition ServiceType := string.
Definition ServiceExternalTrafficPolicyType := string.
Definition IPFamily := string.
Definition IPFamilyPolicyType := string.

(** intstr.Type and intstr.IntOrString. *)
Inductive IntstrType := Int | String_.

Record IntOrString := mkIntOrString {
  Kind : IntstrType;
  IntVal : Z;
  StrVal : string
}.

Record ServicePort := mkServicePort {
  Protocol_ : Protocol;
  Port : Z;
  TargetPort : IntOrString;
  NodePort : Z
}.

Record ObjectMeta := mkObjectMeta {
  Name : string;
  Namespace : string;
  Annotations : StringMap
}.

(** [IPFamilies] is a slice compared with nil, [IPFamilyPolicy] a pointer;
    of [Ports] the code takes the length and the first element only. *)
Record ServiceSpec := mkServiceSpec {
  Selector : StringMap;
  Ports : list ServicePort;
  Type_ : ServiceType;
  ExternalTrafficPolicy : ServiceExternalTrafficPolicyType;
  IPFamilies : option (list IPFamily);
  IPFamilyPolicy : option IPFamilyPolicyType
}.

Record Service := mkService {
  Meta : ObjectMeta;
  Spec : ServiceSpec
}.

(** ** Errors *)

(** fmt.Sprintf on string operands, for the verbs without flags or width:
    [%s] and [%v] take the next operand and print as Go does when none is
    left, [%%] is a percent sign, and a lone [%] at the end has no verb.
    Anything else is copied as it stands. *)
Fixpoint Sprintf (format : string) (args : list string) : string :=
  match format with
  | EmptyString => EmptyString
  | String c rest =>
      if Ascii.eqb c "%" then
        match rest with
        | EmptyString => "%!(NOVERB)"
        | String verb rest' =>
            if Ascii.eqb verb "s" || Ascii.eqb verb "v" then
              match args with
              | a :: args' => a ++ Sprintf rest' args'
              | [] => "%!" ++ String verb ("(MISSING)" ++ Sprintf rest' [])
              end
            else if Ascii.eqb verb "%" then String "%" (Sprintf rest' args)
            else String c (Sprintf rest args)
        end
      else String c (Sprintf rest args)
  end.

(** An error value is either built by [fmt.Errorf] from a format and its
    operands, or comes from the cluster API client.  Of a client error the
    package observes its text and what [k8serrors.IsNotFound] says of it. *)
Inductive error :=
| Errorf (format : string) (args : list string)
| APIError (notFound : bool) (message : string).

Definition Error (e : error) : string :=
  match e with
  | Errorf format args => Sprintf format args
  | APIError _ message => message
  end.

Definition IsNotFound (e : error) : bool :=
  match e with
  | Errorf _ _ => false
  | APIError notFound _ => notFound
  end.

(** ** DefineServicePort and isValidPort *)

Definition isValidPort (port : Z) : bool :=
  if (port >? 0) || (port <? 65535) then true else false.

Definition DefineServicePort (port targetPort : Z) (protocol : Protocol)
  : option ServicePort * option error :=
  if negb (isValidPort port) then
    (None, Some (Errorf "invalid port number" []))
  else if negb (isValidPort targetPort) then
    (None, Some (Errorf "invalid target port number" []))
  else
    (Some {| Protocol_ := protocol;
             Port := port;
             TargetPort := {| Kind := Int; IntVal := targetPort; StrVal := "" |};
             NodePort := 0 |},
     None).

(** ** The Builder, the store of Builders and the cluster *)

Section Model.

(** The state behind the API server. *)
Variable Cluster : Type.

(** msg.UndefinedCrdObjectErrString, of the repository's package msg. *)
Variable UndefinedCrdObjectErrString : string -> string.

(** clients.Settings: the three calls of [apiClient.Services(ns)] the
    package makes.  Each returns what the Go method returns, a pair for Get
    and Create, and the cluster after the call. *)
Record Settings := mkSettings {
  Services_Get : string -> string -> Cluster ->
                 (option Service * option error) * Cluster;
  Services_Create : string -> option Service -> Cluster ->
                    (option Service * option error) * Cluster;
  Services_Delete : string -> string -> Cluster -> option error * Cluster
}.

Record Builder := mkBuilder {
  Definition_ : option Service;
  Object : option Service;
  errorMsg : string;
  apiClient : option Settings
}.

(** A pointer to a Builder. *)
Definition ptr := option nat.

(** The cluster API calls made, in order. *)
Inductive Call :=
| CallGet (ns name : string)
| CallCreate (ns : string) (definition : option Service)
| CallDelete (ns name : string).

Record World := mkWorld {
  heap : nat -> Builder;
  next : nat;
  cluster : Cluster;
  calls : list Call
}.

(** ** Computations: a state over [World] that may panic *)

Inductive outcome (A : Type) :=
| Ret (a : A) (w : World)
| Panic.
Arguments Ret {A} a w.
Arguments Panic {A}.

Definition M (A : Type) := World -> outcome A.

Definition ret {A} (a : A) : M A := fun w => Ret a w.

Definition bind {A B} (m : M A) (f : A -> M B) : M B :=
  fun w => match m w with
           | Ret a w' => f a w'
           | Panic => Panic
           end.

Definition panic {A} : M A := fun _ => Panic.

Notation "x <- c ;; k" := (bind c (fun x => k))
  (at level 100, c at next level, right associativity).
Notation "' p <- c ;; k" := (bind c (fun x => let 'p := x in k))
  (at level 100, p pattern, c at next level, right associativity).
Notation "c ;;; k" := (bind c (fun _ => k))
  (at level 100, right associativity).

(** A read through the Builder pointer. *)
Definition deref (builder : ptr) : M Builder :=
  fun w => match builder with
           | Some l => Ret (heap w l) w
           | None => Panic
           end.

Definition update (l : nat) (b : Builder) (h : nat -> Builder) : nat -> Builder :=
  fun l' => if Nat.eqb l' l then b else h l'.

(** An assignment to fields of the Builder pointed to. *)
Definition modify (builder : ptr) (f : Builder -> Builder) : M unit :=
  fun w => match builder with
           | Some l =>
               Ret tt {| heap := update l (f (heap w l)) (heap w);
                         next := next w;
                         cluster := cluster w;
                         calls := calls w |}
           | None => Panic
           end.

(** The address of a local Builder that escapes its function. *)
Definition alloc (b : Builder) : M ptr :=
  fun w => Ret (Some (next w))
               {| heap := update (next w) b (heap w);
                  next := S (next w);
                  cluster := cluster w;
                  calls := calls w |}.

Definition withErrorMsg (s : string) (b : Builder) : Builder :=
  {| Definition_ := Definition_ b; Object := Object b;
     errorMsg := s; apiClient := apiClient b |}.

Definition withObject (o : option Service) (b : Builder) : Builder :=
  {| Definition_ := Definition_ b; Object := o;
     errorMsg := errorMsg b; apiClient := apiClient b |}.

Definition withDefinition (d : option Service) (b : Builder) : Builder :=
  {| Definition_ := d; Object := Object b;
     errorMsg := errorMsg b; apiClient := apiClient b |}.

(** [builder.errorMsg = s] and [builder.Object = o] *)
Definition setErrorMsg (builder : ptr) (s : string) : M unit :=
  modify builder (withErrorMsg s).

Definition setObject (builder : ptr) (o : option Service) : M unit :=
  modify builder (withObject o).

(** A read of a field of [builder.Definition]. *)
Definition derefDefinition (builder : ptr) : M Service :=
  b <- deref builder ;;
  match Definition_ b with
  | Some d => ret d
  | None => panic
  end.

(** [builder.Definition.f = v], as an update of the Service pointed to. *)
Definition modifyDefinition (builder : ptr) (f : Service -> Service) : M unit :=
  d <- derefDefinition builder ;;
  modify builder (withDefinition (Some (f d))).

(** A method call on [builder.apiClient]. *)
Definition derefClient (builder : ptr) : M Settings :=
  b <- deref builder ;;
  match apiClient b with
  | Some c => ret c
  | None => panic
  end.

(** A read of a field of [builder.Object]. *)
Definition derefObject (builder : ptr) : M Service :=
  b <- deref builder ;;
  match Object b with
  | Some o => ret o
  | None => panic
  end.

(** The calls of the client: run on the cluster and recorded in [calls]. *)
Definition record {A} (c : Call) (r : A * Cluster) : M A :=
  fun w => Ret (fst r) {| heap := heap w; next := next w;
                          cluster := snd r; calls := (calls w ++ [c])%list |}.

Definition apiGet (client : Settings) (ns name : string)
  : M (option Service * option error) :=
  fun w => record (CallGet ns name) (Services_Get client ns name (cluster w)) w.

Definition apiCreate (client : Settings) (ns : string) (d : option Service)
  : M (option Service * option error) :=
  fun w => record (CallCreate ns d) (Services_Create client ns d (cluster w)) w.

Definition apiDelete (client : Settings) (ns name : string) : M (option error) :=
  fun w => record (CallDelete ns name) (Services_Delete client ns name (cluster w)) w.

(** ** NewBuilder *)

Definition NewBuilder (apiClient : option Settings) (name nsname : string)
  (labels : StringMap) (servicePort : ServicePort) : M ptr :=
  let builder :=
    {| apiClient := apiClient;
       Definition_ :=
         Some {| Meta := {| Name := name; Namespace := nsname;
                            Annotations := None |};
                 Spec := {| Selector := labels;
                            Ports := [servicePort];
                            Type_ := "";
                            ExternalTrafficPolicy := "";
                            IPFamilies := None;
                            IPFamilyPolicy := None |} |};
       Object := None;
       errorMsg := "" |} in
  let builder :=
    if String.eqb name "" then withErrorMsg "Service 'name' cannot be empty" builder
    else builder in
  let builder :=
    if String.eqb nsname "" then withErrorMsg "Namespace 'nsname' cannot be empty" builder
    else builder in
  alloc builder.

(** ** validate *)

Definition resourceCRD : string := "Service".

Definition validate (builder : ptr) : M (bool * option error) :=
  match builder with
  | None =>
      ret (false, Some (Errorf "error: received nil %s builder" [resourceCRD]))
  | Some _ =>
      b <- deref builder ;;
      match Definition_ b with
      | None => setErrorMsg builder (UndefinedCrdObjectErrString resourceCRD)
      | Some _ => ret tt
      end ;;;
      b <- deref builder ;;
      match apiClient b with
      | None =>
          setErrorMsg builder
            (Sprintf "%s builder cannot have nil apiClient" [resourceCRD])
      | Some _ => ret tt
      end ;;;
      b <- deref builder ;;
      if negb (String.eqb (errorMsg b) "") then
        ret (false, Some (Errorf (errorMsg b) []))
      else
        ret (true, None)
  end.

(** ** Exists, Create, Delete *)

Definition Exists (builder : ptr) : M bool :=
  '(valid, _) <- validate builder ;;
  if negb valid then ret false
  else
    derefDefinition builder ;;;
    client <- derefClient builder ;;
    d <- derefDefinition builder ;;
    '(object, err) <- apiGet client (Namespace (Meta d)) (Name (Meta d)) ;;
    setObject builder object ;;;
    ret match err with
        | None => true
        | Some e => negb (IsNotFound e)
        end.

Definition Create (builder : ptr) : M (ptr * option error) :=
  '(valid, err) <- validate builder ;;
  if negb valid then ret (builder, err)
  else
    derefDefinition builder ;;;
    exists_ <- Exists builder ;;
    if negb exists_ then
      client <- derefClient builder ;;
      d <- derefDefinition builder ;;
      b <- deref builder ;;
      '(object, err) <- apiCreate client (Namespace (Meta d)) (Definition_ b) ;;
      setObject builder object ;;;
      ret (builder, err)
    else
      ret (builder, None).

Definition Delete (builder : ptr) : M (option error) :=
  '(valid, err) <- validate builder ;;
  if negb valid then ret err
  else
    derefDefinition builder ;;;
    exists_ <- Exists builder ;;
    if negb exists_ then ret None
    else
      client <- derefClient builder ;;
      d <- derefDefinition builder ;;
      o <- derefObject builder ;;
      err <- apiDelete client (Namespace (Meta d)) (Name (Meta o)) ;;
      match err with
      | Some e => ret (Some e)
      | None => setObject builder None ;;; ret None
      end.

(** ** The fluent mutators *)

Definition withSpec (f : ServiceSpec -> ServiceSpec) (d : Service) : Service :=
  {| Meta := Meta d; Spec := f (Spec d) |}.

Definition setType (t : ServiceType) : Service -> Service :=
  withSpec (fun s =>
    {| Selector := Selector s; Ports := Ports s; Type_ := t;
       ExternalTrafficPolicy := ExternalTrafficPolicy s;
       IPFamilies := IPFamilies s; IPFamilyPolicy := IPFamilyPolicy s |}).

Definition setPorts (ps : list ServicePort) : Service -> Service :=
  withSpec (fun s =>
    {| Selector := Selector s; Ports := ps; Type_ := Type_ s;
       ExternalTrafficPolicy := ExternalTrafficPolicy s;
       IPFamilies := IPFamilies s; IPFamilyPolicy := IPFamilyPolicy s |}).

Definition setExternalTrafficPolicy (p : ServiceExternalTrafficPolicyType)
  : Service -> Service :=
  withSpec (fun s =>
    {| Selector := Selector s; Ports := Ports s; Type_ := Type_ s;
       ExternalTrafficPolicy := p;
       IPFamilies := IPFamilies s; IPFamilyPolicy := IPFamilyPolicy s |}).

Definition setIPFamilies (f : option (list IPFamily)) : Service -> Service :=
  withSpec (fun s =>
    {| Selector := Selector s; Ports := Ports s; Type_ := Type_ s;
       ExternalTrafficPolicy := ExternalTrafficPolicy s;
       IPFamilies := f; IPFamilyPolicy := IPFamilyPolicy s |}).

Definition setIPFamilyPolicy (p : option IPFamilyPolicyType) : Service -> Service :=
  withSpec (fun s =>
    {| Selector := Selector s; Ports := Ports s; Type_ := Type_ s;
       ExternalTrafficPolicy := ExternalTrafficPolicy s;
       IPFamilies := IPFamilies s; IPFamilyPolicy := p |}).

Definition setAnnotations (a : StringMap) (d : Service) : Service :=
  {| Meta := {| Name := Name (Meta d); Namespace := Namespace (Meta d);
                Annotations := a |};
     Spec := Spec d |}.

Definition setNodePort (n : Z) (p : ServicePort) : ServicePort :=
  {| Protocol_ := Protocol_ p; Port := Port p;
     TargetPort := TargetPort p; NodePort := n |}.

Definition WithNodePort (builder : ptr) : M ptr :=
  '(valid, _) <- validate builder ;;
  if negb valid then ret builder
  else
    modifyDefinition builder (setType "NodePort") ;;;
    d <- derefDefinition builder ;;
    match Ports (Spec d) with
    | [] =>
        setErrorMsg builder "service does not have the available ports" ;;;
        ret builder
    | p :: ps =>
        modifyDefinition builder (setPorts (setNodePort (Port p) p :: ps)) ;;;
        ret builder
    end.

(** AdditionalOptions: a function value, nil when [None].  An option is any
    Go function: it may write to the store, call the cluster or panic. *)
Definition AdditionalOptions := option (ptr -> M (ptr * option error)).

(** The loop of WithOptions.  The [builder, err := option(builder)] of the
    loop body declares a new [builder], here [inner], in the scope of the
    [if] block: the error branch writes to and returns [inner], and the
    next iteration goes on with the receiver. *)
Fixpoint WithOptions_loop (builder : ptr) (options : list AdditionalOptions)
  : M ptr :=
  match options with
  | [] => ret builder
  | option :: rest =>
      match option with
      | Some f =>
          '(inner, err) <- f builder ;;
          match err with
          | Some e => setErrorMsg inner (Error e) ;;; ret inner
          | None => WithOptions_loop builder rest
          end
      | None => WithOptions_loop builder rest
      end
  end.

Definition WithOptions (builder : ptr) (options : list AdditionalOptions)
  : M ptr :=
  '(valid, _) <- validate builder ;;
  if negb valid then ret builder
  else WithOptions_loop builder options.

Definition WithExternalTrafficPolicy (builder : ptr)
  (policyType : ServiceExternalTrafficPolicyType) : M ptr :=
  '(valid, _) <- validate builder ;;
  if negb valid then ret builder
  else
    (if String.eqb policyType "" then
       derefDefinition builder ;;;
       setErrorMsg builder "ExternalTrafficPolicy can not be empty"
     else ret tt) ;;;
    b <- deref builder ;;
    if negb (String.eqb (errorMsg b) "") then ret builder
    else
      modifyDefinition builder (setType "LoadBalancer") ;;;
      modifyDefinition builder (setExternalTrafficPolicy policyType) ;;;
      ret builder.

Definition WithAnnotation (builder : ptr) (annotation : StringMap) : M ptr :=
  '(valid, _) <- validate builder ;;
  if negb valid then ret builder
  else
    match annotation with
    | None =>
        derefDefinition builder ;;;
        setErrorMsg builder "Annotation can not be empty map"
    | Some _ => ret tt
    end ;;;
    b <- deref builder ;;
    if negb (String.eqb (errorMsg b) "") then ret builder
    else
      modifyDefinition builder (setAnnotations annotation) ;;;
      ret builder.

Definition WithIPFamily (builder : ptr) (ipFamily : option (list IPFamily))
  (ipStackPolicy : IPFamilyPolicyType) : M ptr :=
  '(valid, _) <- validate builder ;;
  if negb valid then ret builder
  else
    match ipFamily with
    | None =>
        derefDefinition builder ;;;
        setErrorMsg builder "failed to set empty ipFamily"
    | Some _ => ret tt
    end ;;;
    (if String.eqb ipStackPolicy "" then
       derefDefinition builder ;;;
       setErrorMsg builder "failed to set empty ipStackPolicy"
     else ret tt) ;;;
    b <- deref builder ;;
    if negb (String.eqb (errorMsg b) "") then ret builder
    else
      modifyDefinition builder (setIPFamilies ipFamily) ;;;
      modifyDefinition builder (setIPFamilyPolicy (Some ipStackPolicy)) ;;;
      ret builder.

(** ** Pull *)

(** The local [builder] of Pull escapes through the call of its method
    Exists, so it lives in the store from the start.  The last assignment
    makes [Definition] the pointer [Object] is; here both hold the value
    pointed to. *)
Definition Pull (apiClient : option Settings) (name nsname : string)
  : M (ptr * option error) :=
  let builder :=
    {| apiClient := apiClient;
       Definition_ :=
         Some {| Meta := {| Name := name; Namespace := nsname;
                            Annotations := None |};
                 Spec := {| Selector := None;
                            Ports := [];
                            Type_ := "";
                            ExternalTrafficPolicy := "";
                            IPFamilies := None;
                            IPFamilyPolicy := None |} |};
       Object := None;
       errorMsg := "" |} in
  let builder :=
    if String.eqb name "" then withErrorMsg "service 'name' cannot be empty" builder
    else builder in
  let builder :=
    if String.eqb nsname "" then
      withErrorMsg "service 'namespace' cannot be empty" builder
    else builder in
  builder <- alloc builder ;;
  exists_ <- Exists builder ;;
  if negb exists_ then
    ret (None,
         Some (Errorf "service object %s doesn't exist in namespace %s"
                 [name; nsname]))
  else
    b <- deref builder ;;
    modify builder (withDefinition (Object b)) ;;;
    ret (builder, None).

End Model.

Arguments mkSettings {Cluster} _ _ _.
Arguments Services_Get {Cluster} _ _ _ _.
Arguments Services_Create {Cluster} _ _ _ _.
Arguments Services_Delete {Cluster} _ _ _ _.
Arguments mkBuilder {Cluster} _ _ _ _.
Arguments Definition_ {Cluster} _.
Arguments Object {Cluster} _.
Arguments errorMsg {Cluster} _.
Arguments apiClient {Cluster} _.
Arguments mkWorld {Cluster} _ _ _ _.
Arguments heap {Cluster} _ _.
Arguments next {Cluster} _.
Arguments cluster {Cluster} _.
Arguments calls {Cluster} _.
Arguments Ret {Cluster A} a w.
Arguments Panic {Cluster A}.
Arguments ret {Cluster A} a w.
Arguments bind {Cluster A B} m f w.
Arguments panic {Cluster A} w.
Arguments deref {Cluster} builder w.
Arguments update {Cluster} l b h l'.
Arguments modify {Cluster} builder f w.
Arguments alloc {Cluster} b w.
Arguments withErrorMsg {Cluster} s b.
Arguments withObject {Cluster} o b.
Arguments withDefinition {Cluster} d b.
Arguments setErrorMsg {Cluster} builder s w.
Arguments setObject {Cluster} builder o w.
Arguments derefDefinition {Cluster} builder w.
Arguments modifyDefinition {Cluster} builder f w.
Arguments derefClient {Cluster} builder w.
Arguments derefObject {Cluster} builder w.
Arguments record {Cluster A} c r w.
Arguments apiGet {Cluster} client ns name w.
Arguments apiCreate {Cluster} client ns d w.
Arguments apiDelete {Cluster} client ns name w.
Arguments NewBuilder {Cluster} apiClient name nsname labels servicePort w.
Arguments validate {Cluster} UndefinedCrdObjectErrString builder w.
Arguments Exists {Cluster} UndefinedCrdObjectErrString builder w.
Arguments Create {Cluster} UndefinedCrdObjectErrString builder w.
Arguments Delete {Cluster} UndefinedCrdObjectErrString builder w.
Arguments WithNodePort {Cluster} UndefinedCrdObjectErrString builder w.
Arguments WithOptions_loop {Cluster} builder options w.
Arguments WithOptions {Cluster} UndefinedCrdObjectErrString builder options w.
Arguments WithExternalTrafficPolicy {Cluster} UndefinedCrdObjectErrString
  builder policyType w.
Arguments WithAnnotation {Cluster} UndefinedCrdObjectErrString builder annotation w.
Arguments WithIPFamily {Cluster} UndefinedCrdObjectErrString
  builder ipFamily ipStackPolicy w.
Arguments Pull {Cluster} UndefinedCrdObjectErrString apiClient name nsname w.

Notation "x <- c ;; k" := (bind c (fun x => k))
  (at level 100, c at next level, right associativity).
Notation "' p <- c ;; k" := (bind c (fun x => let 'p := x in k))
  (at level 100, p pattern, c at next level, right associativity).
Notation "c ;;; k" := (bind c (fun _ => k))
  (at level 100, right associativity).

(** ** Vocabulary of the statements *)

(** The three checks of [validate] all pass on this Builder. *)
Definition passes {Cluster} (b : Builder Cluster) : bool :=
  match Definition_ b, apiClient b with
  | Some _, Some _ => String.eqb (errorMsg b) ""
  | _, _ => false
  end.

(** The message [validate] leaves in [errorMsg]: each failing check
    overwrites what the checks before it, and the mutators, recorded. *)
Definition lastErrorMsg {Cluster} (U : string -> string) (b : Builder Cluster)
  : string :=
  match apiClient b with
  | None => Sprintf "%s builder cannot have nil apiClient" [resourceCRD]
  | Some _ =>
      match Definition_ b with
      | None => U resourceCRD
      | Some _ => errorMsg b
      end
  end.

(** The message NewBuilder records: the namespace check comes last. *)
Definition NewBuilder_errorMsg (name nsname : string) : string :=
  if String.eqb nsname "" then "Namespace 'nsname' cannot be empty"
  else if String.eqb name "" then "Service 'name' cannot be empty"
  else "".

(** No cluster API call was made between [w] and [w']. *)
Definition noCall {Cluster} (w w' : World Cluster) : Prop :=
  calls w' = calls w /\ cluster w' = cluster w.

(** Between [w] and [w'] nothing but [errorMsg] of the Builder at [l] was
    written, and no Builder was allocated. *)
Definition onlyErrorMsg {Cluster} (l : nat) (w w' : World Cluster) : Prop :=
  next w' = next w /\
  (forall l', l' <> l -> heap w' l' = heap w l') /\
  Definition_ (heap w' l) = Definition_ (heap w l) /\
  Object (heap w' l) = Object (heap w l) /\
  apiClient (heap w' l) = apiClient (heap w l).

(** The world after the Get that [Exists] makes for the Builder at [l],
    whose client is [c] and whose Definition is [d]: the call is recorded,
    the cluster is as Get left it, and [Object] is the object Get returned. *)
Definition fetched {Cluster} (l : nat) (c : Settings Cluster) (d : Service)
  (w : World Cluster) : World Cluster :=
  let r := Services_Get c (Namespace (Meta d)) (Name (Meta d)) (cluster w) in
  {| heap := update l (withObject (fst (fst r)) (heap w l)) (heap w);
     next := next w;
     cluster := snd r;
     calls := (calls w ++ [CallGet (Namespace (Meta d)) (Name (Meta d))])%list |}.

(** What [Exists] answers for an error returned by Get. *)
Definition existsVerdict (err : option error) : bool :=
  match err with
  | None => true
  | Some e => negb (IsNotFound e)
  end.

(** The pointer is nil, or the Builder's Definition or apiClient is. *)
Definition nilGuarded {Cluster} (w : World Cluster) (builder : ptr) : Prop :=
  match builder with
  | None => True
  | Some l => Definition_ (heap w l) = None \/ apiClient (heap w l) = None
  end.

(** ** Concrete inputs for the examples *)

(** An instance of msg.UndefinedCrdObjectErrString: the message the test
    of validate expects for the sibling builder of kind "ibgu". *)
Definition sampleUndefinedCrd (crd : string) : string :=
  "can not redefine the undefined " ++ crd.

(** A cluster that stores the Services created, in the way of a fake
    clientset: Get and Delete of a missing Service fail with NotFound. *)
Definition Store := list Service.

Definition named (ns name : string) (s : Service) : bool :=
  String.eqb (Namespace (Meta s)) ns && String.eqb (Name (Meta s)) name.

Definition storeGet (ns name : string) (c : Store)
  : (option Service * option error) * Store :=
  match find (named ns name) c with
  | Some s => ((Some s, None), c)
  | None => ((None, Some (APIError true "not found")), c)
  end.

Definition storeCreate (ns : string) (d : option Service) (c : Store)
  : (option Service * option error) * Store :=
  match d with
  | Some s =>
      if existsb (named ns (Name (Meta s))) c
      then ((None, Some (APIError false "already exists")), c)
      else ((Some s, None), (c ++ [s])%list)
  | None => ((None, Some (APIError false "object is nil")), c)
  end.

Definition storeDelete (ns name : string) (c : Store) : option error * Store :=
  if existsb (named ns name) c
  then (None, filter (fun s => negb (named ns name s)) c)
  else (Some (APIError true "not found"), c).

Definition storeClient : Settings Store :=
  mkSettings storeGet storeCreate storeDelete.

(** The zero value of corev1.Service. *)
Definition zeroService : Service :=
  {| Meta := {| Name := ""; Namespace := ""; Annotations := None |};
     Spec := {| Selector := None; Ports := []; Type_ := "";
                ExternalTrafficPolicy := ""; IPFamilies := None;
                IPFamilyPolicy := None |} |}.

(** A client that cannot reach the server.  As the typed client of
    client-go does, Get and Create return the Service they allocated for
    the answer, still empty, together with the error. *)
Definition unreachableClient : Settings Store :=
  mkSettings
    (fun _ _ c => ((Some zeroService, Some (APIError false "connection refused")), c))
    (fun _ _ c => ((Some zeroService, Some (APIError false "connection refused")), c))
    (fun _ _ c => (Some (APIError false "connection refused"), c)).


Definition zeroBuilder : Builder Store :=
  {| Definition_ := None; Object := None; errorMsg := ""; apiClient := None |}.

Definition emptyWorld : World Store :=
  {| heap := fun _ => zeroBuilder; next := 0%nat; cluster := []; calls := [] |}.

Definition httpPort : ServicePort :=
  {| Protocol_ := "TCP"; Port := 80;
     TargetPort := {| Kind := Int; IntVal := 8080; StrVal := "" |};
     NodePort := 0 |}.

(** The value a computation returned, [None] if it panicked. *)
Definition value {Cluster A} (o : outcome Cluster A) : option A :=
  match o with
  | Ret a _ => Some a
  | Panic => None
  end.

(** The world left by a computation, [w] itself if it panicked. *)
Definition after {Cluster A} (m : M Cluster A) (w : World Cluster)
  : World Cluster :=
  match m w with
  | Ret _ w' => w'
  | Panic => w
  end.

(** The Service [web] of namespace [prod], as NewBuilder defines it. *)
Definition webService : Service :=
  {| Meta := {| Name := "web"; Namespace := "prod"; Annotations := None |};
     Spec := {| Selector := None; Ports := [httpPort]; Type_ := "";
                ExternalTrafficPolicy := ""; IPFamilies := None;
                IPFamilyPolicy := None |} |}.

(** One Builder at address 0, made by NewBuilder for [web] in [prod]. *)
Definition webWorld (client : option (Settings Store)) : World Store :=
  after (NewBuilder client "web" "prod" None httpPort) emptyWorld.

(** The same, on a cluster where [web] runs already. *)
Definition runningWorld (client : option (Settings Store)) : World Store :=
  after (NewBuilder client "web" "prod" None httpPort)
    {| heap := fun _ => zeroBuilder; next := 0%nat;
       cluster := [webService]; calls := [] |}.

(** The same Builder after its caller emptied [Definition.Spec.Ports], a
    field of an exported struct. *)
Definition portlessWorld : World Store :=
  after (modifyDefinition (Some 0%nat) (setPorts []))
    (webWorld (Some storeClient)).

(** An option that works on a copy of the Builder it is given and rejects
    it: it returns the address of the copy together with an error. *)
Definition rejectCopy : AdditionalOptions Store :=
  Some (fun builder =>
          b <- deref builder ;;
          copy <- alloc b ;;
          ret (copy, Some (Errorf "unsupported option" []))).

(** An option that fails the way Go functions mostly do, with a nil
    result next to the error. *)
Definition rejectNil : AdditionalOptions Store :=
  Some (fun _ => ret (None, Some (Errorf "unsupported option" []))).

(** ** Vocabulary and inputs of the further properties *)

(** Between [w] and [w'] nothing was written but [Definition] and
    [errorMsg] of the Builder at [l]: no call, no allocation. *)
Definition onlyBuilder {Cluster} (l : nat) (w w' : World Cluster) : Prop :=
  noCall w w' /\
  next w' = next w /\
  (forall l', l' <> l -> heap w' l' = heap w l') /\
  Object (heap w' l) = Object (heap w l) /\
  apiClient (heap w' l) = apiClient (heap w l).

(** One call of a fluent chain [builder.WithA(..).WithB(..)]. *)
Inductive Mutator (Cluster : Type) :=
| CallWithNodePort
| CallWithOptions (options : list (AdditionalOptions Cluster))
| CallWithExternalTrafficPolicy (policyType : ServiceExternalTrafficPolicyType)
| CallWithAnnotation (annotation : StringMap)
| CallWithIPFamily (ipFamily : option (list IPFamily))
    (ipStackPolicy : IPFamilyPolicyType).
Arguments CallWithNodePort {Cluster}.
Arguments CallWithOptions {Cluster} options.
Arguments CallWithExternalTrafficPolicy {Cluster} policyType.
Arguments CallWithAnnotation {Cluster} annotation.
Arguments CallWithIPFamily {Cluster} ipFamily ipStackPolicy.

Definition call {Cluster} (U : string -> string) (m : Mutator Cluster)
  (builder : ptr) : M Cluster ptr :=
  match m with
  | CallWithNodePort => WithNodePort U builder
  | CallWithOptions options => WithOptions U builder options
  | CallWithExternalTrafficPolicy policyType =>
      WithExternalTrafficPolicy U builder policyType
  | CallWithAnnotation annotation => WithAnnotation U builder annotation
  | CallWithIPFamily ipFamily ipStackPolicy =>
      WithIPFamily U builder ipFamily ipStackPolicy
  end.

(** The chain: each method is called on the pointer the one before it
    returned. *)
Fixpoint chain {Cluster} (U : string -> string) (ms : list (Mutator Cluster))
  (builder : ptr) : M Cluster ptr :=
  match ms with
  | [] => ret builder
  | m :: ms' => p <- call U m builder ;; chain U ms' p
  end.

(** The message Pull records before it asks Exists: the namespace check
    comes last. *)
Definition Pull_errorMsg (name nsname : string) : string :=
  if String.eqb nsname "" then "service 'namespace' cannot be empty"
  else if String.eqb name "" then "service 'name' cannot be empty"
  else "".

(** The Builder Pull allocates before it asks Exists. *)
Definition Pull_builder {Cluster} (client : option (Settings Cluster))
  (name nsname : string) : Builder Cluster :=
  {| Definition_ :=
       Some {| Meta := {| Name := name; Namespace := nsname;
                          Annotations := None |};
               Spec := {| Selector := None; Ports := []; Type_ := "";
                          ExternalTrafficPolicy := ""; IPFamilies := None;
                          IPFamilyPolicy := None |} |};
     Object := None;
     errorMsg := Pull_errorMsg name nsname;
     apiClient := client |}.

(** The error Pull returns when Exists answers false. *)
Definition Pull_error (name nsname : string) : error :=
  Errorf "service object %s doesn't exist in namespace %s" [name; nsname].

(** A cluster API call other than Delete. *)
Definition notDelete (c : Call) : Prop :=
  match c with
  | CallDelete _ _ => False
  | _ => True
  end.






(** A cluster where [web] runs and no Builder exists yet. *)
Definition runningCluster : World Store :=
  {| heap := fun _ => zeroBuilder; next := 0%nat;
     cluster := [webService]; calls := [] |}.

(** A client whose Get fails on a timeout and returns no object. *)
Definition timeoutClient : Settings Store :=
  mkSettings
    (fun _ _ c => ((None, Some (APIError false "timeout")), c))
    storeCreate storeDelete.

(** * Properties *)

Section Properties.

Variable Cluster : Type.
Variable U : string -> string.

Implicit Types (w : World Cluster) (l : nat) (builder : ptr).

Ltac run :=
  unfold setErrorMsg, setObject, modifyDefinition, derefDefinition,
    derefClient, derefObject, apiGet, apiCreate, apiDelete, record,
    modify, deref, bind, ret, panic in *.

Lemma update_same (h : nat -> Builder Cluster) l b : update l b h l = b.
Proof. unfold update. now rewrite Nat.eqb_refl. Qed.

Lemma update_other (h : nat -> Builder Cluster) l l' b :
  l' <> l -> update l b h l' = h l'.
Proof.
  intro Hne. unfold update.
  destruct (Nat.eqb l' l) eqn:E; [apply Nat.eqb_eq in E; contradiction | reflexivity].
Qed.

Lemma noCall_refl w : noCall w w.
Proof. split; reflexivity. Qed.

Lemma passes_fields (b : Builder Cluster) :
  passes b = true ->
  exists d c, Definition_ b = Some d /\ apiClient b = Some c /\ errorMsg b = "".
Proof.
  unfold passes.
  destruct (Definition_ b) as [d|], (apiClient b) as [c|]; try discriminate.
  intro H. apply String.eqb_eq in H. now exists d, c.
Qed.

(** ** validate *)

(** On a nil pointer [validate] fails at once and writes nothing. *)
Lemma validate_nil w :
  validate U None w =
  Ret (false, Some (Errorf "error: received nil %s builder" [resourceCRD])) w.
Proof. reflexivity. Qed.

(** On a Builder that passes the three checks [validate] writes nothing. *)
Lemma validate_passes w l :
  passes (heap w l) = true ->
  validate U (Some l) w = Ret (true, None) w.
Proof.
  intro H. destruct (passes_fields _ H) as (d & c & Hd & Hc & He).
  unfold validate. run. rewrite Hd, Hc, He. reflexivity.
Qed.

(** What [validate] returns and writes on any Builder: the verdict is
    read off [lastErrorMsg], which is also what [errorMsg] holds after. *)
Lemma validate_spec w l :
  exists w',
    validate U (Some l) w =
      Ret (if String.eqb (lastErrorMsg U (heap w l)) ""
           then (true, None)
           else (false, Some (Errorf (lastErrorMsg U (heap w l)) []))) w' /\
    noCall w w' /\ onlyErrorMsg l w w' /\
    errorMsg (heap w' l) = lastErrorMsg U (heap w l).
Proof.
  unfold validate, lastErrorMsg, noCall, onlyErrorMsg. run.
  destruct (heap w l) as [d o e c] eqn:Hb. simpl.
  destruct d as [d|], c as [c|]; simpl;
    repeat (rewrite ?update_same, ?Hb; simpl).
  - destruct (String.eqb e "") eqn:He; simpl;
      (eexists; split; [reflexivity|]); rewrite Hb; simpl; intuition.
  - eexists; split; [reflexivity|]. simpl. rewrite update_same. simpl.
    repeat split; auto. intros. now apply update_other.
  - destruct (String.eqb (U resourceCRD) "") eqn:He; simpl;
      (eexists; split; [reflexivity|]); simpl; rewrite update_same; simpl;
      repeat split; auto; intros; now apply update_other.
  - eexists; split; [reflexivity|]. simpl. rewrite !update_same. simpl.
    repeat split; auto. intros. rewrite !update_other by assumption. reflexivity.
Qed.

(** Every guarded operation ends where a failed [validate] ends. *)
Lemma guarded_fail builder w e w' :
  validate U builder w = Ret (false, e) w' ->
  Exists U builder w = Ret false w' /\
  Create U builder w = Ret (builder, e) w' /\
  Delete U builder w = Ret e w' /\
  WithNodePort U builder w = Ret builder w' /\
  (forall options, WithOptions U builder options w = Ret builder w') /\
  (forall policyType,
     WithExternalTrafficPolicy U builder policyType w = Ret builder w') /\
  (forall annotation, WithAnnotation U builder annotation w = Ret builder w') /\
  (forall ipFamily ipStackPolicy,
     WithIPFamily U builder ipFamily ipStackPolicy w = Ret builder w').
Proof.
  intro H.
  unfold Exists, Create, Delete, WithNodePort, WithOptions,
    WithExternalTrafficPolicy, WithAnnotation, WithIPFamily, bind.
  rewrite H. simpl. repeat split; reflexivity.
Qed.

Lemma nil_apiClient_message_nonempty :
  Sprintf "%s builder cannot have nil apiClient" [resourceCRD] <> "".
Proof. discriminate. Qed.

Lemma nilGuarded_lastErrorMsg w l :
  U resourceCRD <> "" ->
  nilGuarded w (Some l) ->
  lastErrorMsg U (heap w l) <> "".
Proof.
  intros HU H. unfold lastErrorMsg. simpl in H.
  destruct (apiClient (heap w l)); [|apply nil_apiClient_message_nonempty].
  destruct H as [H|H]; [now rewrite H | discriminate].
Qed.

Lemma failed_lastErrorMsg w l :
  U resourceCRD <> "" ->
  errorMsg (heap w l) <> "" ->
  lastErrorMsg U (heap w l) <> "".
Proof.
  intros HU H. unfold lastErrorMsg.
  destruct (apiClient (heap w l)); [|apply nil_apiClient_message_nonempty].
  now destruct (Definition_ (heap w l)).
Qed.

(** A Builder with a message in [lastErrorMsg] fails [validate] with it. *)
Lemma validate_fails w l :
  lastErrorMsg U (heap w l) <> "" ->
  exists w',
    validate U (Some l) w =
      Ret (false, Some (Errorf (lastErrorMsg U (heap w l)) [])) w' /\
    noCall w w' /\ onlyErrorMsg l w w' /\
    errorMsg (heap w' l) = lastErrorMsg U (heap w l).
Proof.
  intro H. destruct (validate_spec w l) as (w' & Hv & Hrest).
  exists w'. split; [|exact Hrest].
  rewrite Hv. apply String.eqb_neq in H. now rewrite H.
Qed.

(** ** Nil builders, nil Definitions and nil clients *)

(** C2.  On a builder that is nil, or whose Definition or apiClient is nil,
    validate returns false with a non-nil error, and Exists, Create, Delete
    and every With* mutator return, each in the state validate left: none
    panics, none calls the cluster API, and nothing but errorMsg is
    written.  The message of msg.UndefinedCrdObjectErrString is taken to be
    non-empty. *)
Theorem nil_builder_is_guarded w builder :
  U resourceCRD <> "" ->
  nilGuarded w builder ->
  exists e w',
    validate U builder w = Ret (false, Some e) w' /\
    noCall w w' /\
    match builder with
    | Some l => onlyErrorMsg l w w'
    | None => w' = w
    end /\
    Exists U builder w = Ret false w' /\
    Create U builder w = Ret (builder, Some e) w' /\
    Delete U builder w = Ret (Some e) w' /\
    WithNodePort U builder w = Ret builder w' /\
    (forall options, WithOptions U builder options w = Ret builder w') /\
    (forall policyType,
       WithExternalTrafficPolicy U builder policyType w = Ret builder w') /\
    (forall annotation, WithAnnotation U builder annotation w = Ret builder w') /\
    (forall ipFamily ipStackPolicy,
       WithIPFamily U builder ipFamily ipStackPolicy w = Ret builder w').
Proof.
  intros HU Hnil. destruct builder as [l|].
  - destruct (validate_fails w l (nilGuarded_lastErrorMsg w l HU Hnil))
      as (w' & Hv & Hcall & Honly & _).
    exists (Errorf (lastErrorMsg U (heap w l)) []), w'.
    repeat (split; [assumption|]). exact (guarded_fail _ _ _ _ Hv).
  - exists (Errorf "error: received nil %s builder" [resourceCRD]), w.
    split; [apply validate_nil|]. split; [apply noCall_refl|].
    split; [reflexivity|]. exact (guarded_fail _ _ _ _ (validate_nil w)).
Qed.

(** ** A builder that already failed *)

(** C3, amended.  On a builder whose errorMsg is non-empty, validate fails
    without a cluster API call, so every With* mutator returns the
    receiver with the Definition as it was, Exists returns false, and
    Create and Delete return the error validate built.  That error is
    built from errorMsg as validate leaves it: from the message the
    builder had when its Definition and apiClient are both non-nil, and
    otherwise from the message of the nil check, which replaces it. *)
Theorem failed_builder_short_circuits w l :
  U resourceCRD <> "" ->
  errorMsg (heap w l) <> "" ->
  exists w',
    validate U (Some l) w =
      Ret (false, Some (Errorf (lastErrorMsg U (heap w l)) [])) w' /\
    noCall w w' /\
    Definition_ (heap w' l) = Definition_ (heap w l) /\
    errorMsg (heap w' l) = lastErrorMsg U (heap w l) /\
    (Definition_ (heap w l) <> None -> apiClient (heap w l) <> None ->
     lastErrorMsg U (heap w l) = errorMsg (heap w l)) /\
    WithNodePort U (Some l) w = Ret (Some l) w' /\
    (forall options, WithOptions U (Some l) options w = Ret (Some l) w') /\
    (forall policyType,
       WithExternalTrafficPolicy U (Some l) policyType w = Ret (Some l) w') /\
    (forall annotation, WithAnnotation U (Some l) annotation w = Ret (Some l) w') /\
    (forall ipFamily ipStackPolicy,
       WithIPFamily U (Some l) ipFamily ipStackPolicy w = Ret (Some l) w') /\
    Exists U (Some l) w = Ret false w' /\
    Create U (Some l) w =
      Ret (Some l, Some (Errorf (lastErrorMsg U (heap w l)) [])) w' /\
    Delete U (Some l) w = Ret (Some (Errorf (lastErrorMsg U (heap w l)) [])) w'.
Proof.
  intros HU He.
  destruct (validate_fails w l (failed_lastErrorMsg w l HU He))
    as (w' & Hv & Hcall & Honly & Hmsg).
  destruct (guarded_fail _ _ _ _ Hv)
    as (HE & HC & HD & HN & HO & HT & HA & HI).
  exists w'. split; [exact Hv|]. split; [exact Hcall|].
  split; [apply Honly|]. split; [exact Hmsg|].
  split.
  { unfold lastErrorMsg.
    destruct (Definition_ (heap w l)), (apiClient (heap w l)); congruence. }
  repeat (split; [assumption|]). assumption.
Qed.

(** ** Which error is reported *)

Lemma NewBuilder_spec (client : option (Settings Cluster)) name nsname
    labels servicePort w :
  exists w',
    NewBuilder client name nsname labels servicePort w =
      Ret (Some (next w)) w' /\
    noCall w w' /\
    errorMsg (heap w' (next w)) = NewBuilder_errorMsg name nsname /\
    apiClient (heap w' (next w)) = client /\
    Object (heap w' (next w)) = None /\
    exists d, Definition_ (heap w' (next w)) = Some d /\
              Name (Meta d) = name /\ Namespace (Meta d) = nsname /\
              Ports (Spec d) = [servicePort].
Proof.
  unfold NewBuilder, NewBuilder_errorMsg, alloc.
  eexists. split; [reflexivity|]. simpl. rewrite update_same.
  split; [split; reflexivity|].
  destruct (String.eqb name ""), (String.eqb nsname ""); simpl;
    repeat split; eexists; repeat split.
Qed.

(** C1, amended.  When more than one validation failure occurs, the error
    reported is built from the message of the last failing check, not the
    first.  NewBuilder checks the namespace after the name, so with both
    empty it records the namespace message.  validate checks the apiClient
    after the Definition and both after the mutators ran, so it reports a
    nil apiClient over a nil Definition over the recorded errorMsg; Create
    and Delete return the error validate built. *)
Theorem last_failure_is_reported :
  (forall (client : option (Settings Cluster)) name nsname labels servicePort w,
     exists w',
       NewBuilder client name nsname labels servicePort w =
         Ret (Some (next w)) w' /\
       errorMsg (heap w' (next w)) = NewBuilder_errorMsg name nsname) /\
  (forall w l,
     lastErrorMsg U (heap w l) <> "" ->
     exists w',
       validate U (Some l) w =
         Ret (false, Some (Errorf (lastErrorMsg U (heap w l)) [])) w' /\
       Create U (Some l) w =
         Ret (Some l, Some (Errorf (lastErrorMsg U (heap w l)) [])) w' /\
       Delete U (Some l) w =
         Ret (Some (Errorf (lastErrorMsg U (heap w l)) [])) w').
Proof.
  split.
  - intros client name nsname labels servicePort w.
    destruct (NewBuilder_spec client name nsname labels servicePort w)
      as (w' & Hn & _ & He & _).
    now exists w'.
  - intros w l H.
    destruct (validate_fails w l H) as (w' & Hv & _).
    destruct (guarded_fail _ _ _ _ Hv) as (_ & HC & HD & _).
    now exists w'.
Qed.

(** ** Exists *)

Lemma Exists_spec w l d c :
  Definition_ (heap w l) = Some d ->
  apiClient (heap w l) = Some c ->
  errorMsg (heap w l) = "" ->
  Exists U (Some l) w =
    Ret (existsVerdict
           (snd (fst (Services_Get c (Namespace (Meta d)) (Name (Meta d))
                        (cluster w)))))
        (fetched l c d w).
Proof.
  intros Hd Hc He.
  assert (Hp : passes (heap w l) = true)
    by (unfold passes; now rewrite Hd, Hc, He).
  unfold Exists, bind at 1. rewrite (validate_passes w l Hp). simpl.
  run. repeat (rewrite ?Hd, ?Hc; simpl). unfold fetched.
  destruct (Services_Get c (Namespace (Meta d)) (Name (Meta d)) (cluster w))
    as [[object err] cl]. reflexivity.
Qed.

Lemma fetched_heap w l d c :
  heap (fetched l c d w) l =
  withObject
    (fst (fst (Services_Get c (Namespace (Meta d)) (Name (Meta d)) (cluster w))))
    (heap w l).
Proof. unfold fetched. simpl. apply update_same. Qed.

(** C5, amended.  After Exists on a builder that passes validation, the
    Object field is exactly the object the cluster API Get returned for
    the Definition's namespace and name: the fetched live object when the
    Get succeeds and, when the Get fails, the object value the client
    returned with the error, which is nil only if the client returned
    nil.  One Get is made and nothing else of the builder is written. *)
Theorem Exists_stores_the_object_of_Get w l d c :
  Definition_ (heap w l) = Some d ->
  apiClient (heap w l) = Some c ->
  errorMsg (heap w l) = "" ->
  forall object err cl,
    Services_Get c (Namespace (Meta d)) (Name (Meta d)) (cluster w)
      = ((object, err), cl) ->
    exists v w',
      Exists U (Some l) w = Ret v w' /\
      calls w' =
        (calls w ++ [CallGet (Namespace (Meta d)) (Name (Meta d))])%list /\
      cluster w' = cl /\
      Object (heap w' l) = object /\
      Definition_ (heap w' l) = Some d /\
      errorMsg (heap w' l) = "" /\
      apiClient (heap w' l) = Some c.
Proof.
  intros Hd Hc He object err cl HG.
  eexists; eexists. split; [apply (Exists_spec w l d c Hd Hc He)|].
  rewrite fetched_heap. unfold fetched. rewrite HG. simpl.
  repeat split; assumption.
Qed.

(** C9, amended.  On a builder that passes validation, Exists returns
    false exactly when the Get fails with a NotFound error; for every other
    Get failure it returns true, and Object is then the object value the
    client returned with the error, nil only if the client returned nil. *)
Theorem Exists_false_only_on_NotFound w l d c :
  Definition_ (heap w l) = Some d ->
  apiClient (heap w l) = Some c ->
  errorMsg (heap w l) = "" ->
  forall object err cl,
    Services_Get c (Namespace (Meta d)) (Name (Meta d)) (cluster w)
      = ((object, err), cl) ->
    exists v w',
      Exists U (Some l) w = Ret v w' /\
      (v = false <-> exists e, err = Some e /\ IsNotFound e = true) /\
      (forall e, err = Some e -> IsNotFound e = false ->
         v = true /\ Object (heap w' l) = object).
Proof.
  intros Hd Hc He object err cl HG.
  eexists; eexists. split; [apply (Exists_spec w l d c Hd Hc He)|].
  rewrite fetched_heap, HG. simpl. split.
  - destruct err as [e|]; simpl; split.
    + intro H. exists e. split; [reflexivity|].
      now destruct (IsNotFound e).
    + intros (e' & He' & Hnf). inversion He'; subst. now rewrite Hnf.
    + discriminate.
    + intros (e' & He' & _). discriminate.
  - intros e -> Hnf. simpl. now rewrite Hnf.
Qed.

(** ** Create *)

(** C6.  On a valid builder, Create first asks Exists.  When the service
    does not exist, that is when the Get fails with NotFound, it calls the
    cluster API Create once, with the Definition, stores the object Create
    returned in Object and returns Create's error.  When the service
    exists it makes no Create call and returns the builder with a nil
    error. *)
Theorem Create_only_when_missing w l d c :
  Definition_ (heap w l) = Some d ->
  apiClient (heap w l) = Some c ->
  errorMsg (heap w l) = "" ->
  forall object gerr cl1,
    Services_Get c (Namespace (Meta d)) (Name (Meta d)) (cluster w)
      = ((object, gerr), cl1) ->
    (forall e, gerr = Some e -> IsNotFound e = true ->
       forall created cerr cl2,
         Services_Create c (Namespace (Meta d)) (Some d) cl1
           = ((created, cerr), cl2) ->
         exists w',
           Create U (Some l) w = Ret (Some l, cerr) w' /\
           calls w' =
             (calls w ++ [CallGet (Namespace (Meta d)) (Name (Meta d));
                          CallCreate (Namespace (Meta d)) (Some d)])%list /\
           cluster w' = cl2 /\
           Object (heap w' l) = created) /\
    (existsVerdict gerr = true ->
       exists w',
         Create U (Some l) w = Ret (Some l, None) w' /\
         calls w' =
           (calls w ++ [CallGet (Namespace (Meta d)) (Name (Meta d))])%list /\
         cluster w' = cl1 /\
         Object (heap w' l) = object).
Proof.
  intros Hd Hc He object gerr cl1 HG.
  assert (Hp : passes (heap w l) = true)
    by (unfold passes; now rewrite Hd, Hc, He).
  assert (HC : Create U (Some l) w =
               if negb (existsVerdict gerr) then
                 (client <- derefClient (Some l) ;;
                  d <- derefDefinition (Some l) ;;
                  b <- deref (Some l) ;;
                  '(object, err) <-
                    apiCreate client (Namespace (Meta d)) (Definition_ b) ;;
                  setObject (Some l) object ;;;
                  ret (Some l, err)) (fetched l c d w)
               else Ret (Some l, None) (fetched l c d w)).
  { unfold Create, bind at 1. rewrite (validate_passes w l Hp). simpl.
    unfold bind at 1. unfold derefDefinition at 1. unfold deref, bind at 1.
    rewrite Hd. unfold ret at 1. unfold bind at 1.
    rewrite (Exists_spec w l d c Hd Hc He), HG. simpl.
    now destruct (existsVerdict gerr). }
  split.
  - intros e -> Hnf created cerr cl2 HCr.
    rewrite HC. clear HC. simpl. rewrite Hnf. simpl.
    run.
    repeat (rewrite ?fetched_heap, ?update_same; simpl; rewrite ?Hd, ?Hc; simpl).
    unfold fetched. simpl. rewrite HG. simpl. rewrite HCr. simpl.
    eexists. split; [reflexivity|]. simpl. rewrite !update_same. simpl.
    rewrite <- app_assoc. repeat split.
  - intro Hv. rewrite HC, Hv. simpl.
    eexists. split; [reflexivity|].
    rewrite fetched_heap. unfold fetched. rewrite HG. simpl. repeat split.
Qed.

(** ** Delete *)

Lemma Delete_passes w l d c :
  Definition_ (heap w l) = Some d ->
  apiClient (heap w l) = Some c ->
  errorMsg (heap w l) = "" ->
  Delete U (Some l) w =
    if negb (existsVerdict
               (snd (fst (Services_Get c (Namespace (Meta d)) (Name (Meta d))
                            (cluster w)))))
    then Ret None (fetched l c d w)
    else
      (client <- derefClient (Some l) ;;
       d <- derefDefinition (Some l) ;;
       o <- derefObject (Some l) ;;
       err <- apiDelete client (Namespace (Meta d)) (Name (Meta o)) ;;
       match err with
       | Some e => ret (Some e)
       | None => setObject (Some l) None ;;; ret None
       end) (fetched l c d w).
Proof.
  intros Hd Hc He.
  assert (Hp : passes (heap w l) = true)
    by (unfold passes; now rewrite Hd, Hc, He).
  unfold Delete, bind at 1. rewrite (validate_passes w l Hp). simpl.
  unfold bind at 1. unfold derefDefinition at 1. unfold deref, bind at 1.
  rewrite Hd. unfold ret at 1. unfold bind at 1.
  rewrite (Exists_spec w l d c Hd Hc He).
  now destruct (existsVerdict _).
Qed.


(** Exists also answers true when the Get failed for another reason than
    NotFound.  If the client then returned no object, Delete reads the name
    of a nil Object and panics, before any Delete call. *)
Lemma Delete_panics_without_object w l d c :
  Definition_ (heap w l) = Some d ->
  apiClient (heap w l) = Some c ->
  errorMsg (heap w l) = "" ->
  forall e cl1,
    Services_Get c (Namespace (Meta d)) (Name (Meta d)) (cluster w)
      = ((None, Some e), cl1) ->
    IsNotFound e = false ->
    Delete U (Some l) w = Panic.
Proof.
  intros Hd Hc He e cl1 HG Hnf.
  rewrite (Delete_passes w l d c Hd Hc He), HG. simpl. rewrite Hnf. simpl.
  run.
  repeat (rewrite ?fetched_heap, ?update_same; simpl; rewrite ?Hd, ?Hc; simpl).
  rewrite HG. reflexivity.
Qed.

(** ** The mutators *)

Lemma passes_or_fails (b : Builder Cluster) :
  U resourceCRD <> "" ->
  passes b = true \/ lastErrorMsg U b <> "".
Proof.
  intro HU. unfold passes, lastErrorMsg.
  destruct (apiClient b); [|right; apply nil_apiClient_message_nonempty].
  destruct (Definition_ b); [|now right].
  destruct (String.eqb (errorMsg b) "") eqn:E; [now left|].
  right. now apply String.eqb_neq.
Qed.

(** What WithNodePort does on a Builder that passes validation. *)
Lemma WithNodePort_passes w l d :
  passes (heap w l) = true ->
  Definition_ (heap w l) = Some d ->
  exists w',
    WithNodePort U (Some l) w = Ret (Some l) w' /\
    noCall w w' /\
    match Ports (Spec d) with
    | [] =>
        errorMsg (heap w' l) = "service does not have the available ports" /\
        Definition_ (heap w' l) = Some (setType "NodePort" d)
    | p :: ps =>
        errorMsg (heap w' l) = "" /\
        Definition_ (heap w' l) =
          Some (setPorts (setNodePort (Port p) p :: ps) (setType "NodePort" d))
    end.
Proof.
  intros Hp Hd. destruct (passes_fields _ Hp) as (d' & c & Hd' & Hc & He).
  unfold WithNodePort, bind at 1. rewrite (validate_passes w l Hp). simpl.
  run. rewrite Hd. simpl. rewrite !update_same. simpl.
  destruct (Ports (Spec d)) as [|p ps] eqn:HP; simpl.
  - eexists. split; [reflexivity|]. simpl. rewrite !update_same. simpl.
    repeat split.
  - rewrite !update_same. simpl.
    eexists. split; [reflexivity|]. simpl. rewrite !update_same. simpl.
    rewrite He. repeat split.
Qed.

(** C10.  On a builder that passes validation and whose Definition has no
    port, WithNodePort records the error
    "service does not have the available ports" in errorMsg, and the
    Definition it leaves has its Spec.Type set to "NodePort" all the same:
    the assignment comes before the check. *)
Theorem WithNodePort_without_ports w l d :
  passes (heap w l) = true ->
  Definition_ (heap w l) = Some d ->
  Ports (Spec d) = [] ->
  exists w' d',
    WithNodePort U (Some l) w = Ret (Some l) w' /\
    errorMsg (heap w' l) = "service does not have the available ports" /\
    Definition_ (heap w' l) = Some d' /\
    d' = setType "NodePort" d /\
    Type_ (Spec d') = "NodePort".
Proof.
  intros Hp Hd HP.
  destruct (WithNodePort_passes w l d Hp Hd) as (w' & Hr & _ & H).
  rewrite HP in H. destruct H as (He & Hd').
  exists w', (setType "NodePort" d). repeat split; assumption.
Qed.

(** WithNodePort, WithExternalTrafficPolicy, WithAnnotation and
    WithIPFamily return the pointer they were called on, in every case. *)
Lemma simple_mutators_return_receiver w builder :
  U resourceCRD <> "" ->
  (exists w', WithNodePort U builder w = Ret builder w') /\
  (forall policyType,
     exists w', WithExternalTrafficPolicy U builder policyType w = Ret builder w') /\
  (forall annotation,
     exists w', WithAnnotation U builder annotation w = Ret builder w') /\
  (forall ipFamily ipStackPolicy,
     exists w', WithIPFamily U builder ipFamily ipStackPolicy w = Ret builder w').
Proof.
  intro HU.
  assert (Hfail : forall e w', validate U builder w = Ret (false, e) w' ->
            (exists w', WithNodePort U builder w = Ret builder w') /\
            (forall policyType, exists w',
               WithExternalTrafficPolicy U builder policyType w = Ret builder w') /\
            (forall annotation, exists w',
               WithAnnotation U builder annotation w = Ret builder w') /\
            (forall ipFamily ipStackPolicy, exists w',
               WithIPFamily U builder ipFamily ipStackPolicy w = Ret builder w')).
  { intros e w' Hv.
    destruct (guarded_fail _ _ _ _ Hv) as (_ & _ & _ & HN & _ & HT & HA & HI).
    repeat split; intros; exists w'; auto. }
  destruct builder as [l|]; [|exact (Hfail _ _ (validate_nil w))].
  destruct (passes_or_fails (heap w l) HU) as [Hp|Hf].
  2:{ destruct (validate_fails w l Hf) as (w' & Hv & _). exact (Hfail _ _ Hv). }
  clear Hfail.
  destruct (passes_fields _ Hp) as (d & c & Hd & Hc & He).
  split; [|split; [|split]].
  - destruct (WithNodePort_passes w l d Hp Hd) as (w' & Hr & _). now exists w'.
  - intro policyType.
    unfold WithExternalTrafficPolicy, bind at 1.
    rewrite (validate_passes w l Hp). simpl. run.
    destruct (String.eqb policyType "");
      repeat (simpl; rewrite ?update_same, ?Hd, ?He); eexists; reflexivity.
  - intro annotation.
    unfold WithAnnotation, bind at 1.
    rewrite (validate_passes w l Hp). simpl. run.
    destruct annotation;
      repeat (simpl; rewrite ?update_same, ?Hd, ?He); eexists; reflexivity.
  - intros ipFamily ipStackPolicy.
    unfold WithIPFamily, bind at 1.
    rewrite (validate_passes w l Hp). simpl. run.
    destruct ipFamily, (String.eqb ipStackPolicy "");
      repeat (simpl; rewrite ?update_same, ?Hd, ?He); eexists; reflexivity.
Qed.

(** The loop of WithOptions, one option at a time.  A nil option is
    skipped.  From an option that returns no error the loop goes on with
    the receiver, whatever pointer the option returned. *)
Lemma WithOptions_loop_skip builder rest w :
  WithOptions_loop builder (None :: rest) w = WithOptions_loop builder rest w.
Proof. reflexivity. Qed.

Lemma WithOptions_loop_success builder f rest w inner w1 :
  f builder w = Ret (inner, None) w1 ->
  WithOptions_loop builder (Some f :: rest) w = WithOptions_loop builder rest w1.
Proof. intro H. simpl. unfold bind. now rewrite H. Qed.

(** From an option that returns an error the loop returns the pointer
    that option returned, after writing the error to the Builder it points
    to, and panics when that pointer is nil. *)
Lemma WithOptions_loop_error builder f rest w l' e w1 :
  f builder w = Ret (Some l', Some e) w1 ->
  exists w',
    WithOptions_loop builder (Some f :: rest) w = Ret (Some l') w' /\
    noCall w1 w' /\
    errorMsg (heap w' l') = Error e /\
    forall l, l <> l' -> heap w' l = heap w1 l.
Proof.
  intro H. simpl. unfold bind at 1. rewrite H. run.
  eexists. split; [reflexivity|]. simpl. rewrite update_same.
  repeat split. intros. now apply update_other.
Qed.

Lemma WithOptions_loop_error_nil builder f rest w e w1 :
  f builder w = Ret (None, Some e) w1 ->
  WithOptions_loop builder (Some f :: rest) w = Panic.
Proof. intro H. simpl. unfold bind at 1. now rewrite H. Qed.

(** ** DefineServicePort *)

Lemma isValidPort_true (port : Z) : isValidPort port = true.
Proof.
  unfold isValidPort.
  destruct (port >? 0) eqn:Hgt; [reflexivity|].
  assert (H : (port <? 65535) = true) by (apply Z.ltb_lt; lia).
  now rewrite H.
Qed.

(** C8.  For every pair of int32 values, zero, negative and above 65535
    included, isValidPort is true of both, and DefineServicePort returns a
    ServicePort with the given protocol and port and the integer target
    port, with a nil error. *)
Theorem DefineServicePort_accepts_every_int32 (port targetPort : Z)
    (protocol : Protocol) :
  int32 port -> int32 targetPort ->
  isValidPort port = true /\
  isValidPort targetPort = true /\
  exists sp,
    DefineServicePort port targetPort protocol = (Some sp, None) /\
    Protocol_ sp = protocol /\
    Port sp = port /\
    Kind (TargetPort sp) = Int /\
    IntVal (TargetPort sp) = targetPort.
Proof.
  intros _ _. split; [apply isValidPort_true|].
  split; [apply isValidPort_true|].
  unfold DefineServicePort. rewrite !isValidPort_true. simpl.
  eexists. split; [reflexivity|]. repeat split.
Qed.

End Properties.

(** * Examples *)

(** Create on a Builder made with a nil client. *)
Lemma nil_builder_is_guarded_witness :
  sampleUndefinedCrd resourceCRD <> "" /\
  nilGuarded (webWorld None) (Some 0%nat) /\
  exists e w',
    validate sampleUndefinedCrd (Some 0%nat) (webWorld None)
      = Ret (false, Some e) w' /\
    Create sampleUndefinedCrd (Some 0%nat) (webWorld None)
      = Ret (Some 0%nat, Some e) w' /\
    calls w' = [].
Proof.
  assert (HU : sampleUndefinedCrd resourceCRD <> "") by discriminate.
  assert (HN : nilGuarded (webWorld None) (Some 0%nat)) by (right; reflexivity).
  split; [exact HU|]. split; [exact HN|].
  destruct (nil_builder_is_guarded Store sampleUndefinedCrd (webWorld None)
              (Some 0%nat) HU HN)
    as (e & w' & Hv & Hcall & _ & _ & HC & _).
  exists e, w'. split; [exact Hv|]. split; [exact HC|]. apply Hcall.
Defined.

(** A Builder made with an empty name: its errorMsg short-circuits Create. *)
Lemma failed_builder_short_circuits_witness :
  let w := after (NewBuilder (Some storeClient) "" "prod" None httpPort)
             emptyWorld in
  sampleUndefinedCrd resourceCRD <> "" /\
  errorMsg (heap w 0%nat) <> "" /\
  exists w',
    Create sampleUndefinedCrd (Some 0%nat) w =
      Ret (Some 0%nat, Some (Errorf "Service 'name' cannot be empty" [])) w' /\
    calls w' = [] /\
    Definition_ (heap w' 0%nat) = Definition_ (heap w 0%nat).
Proof.
  intro w.
  assert (HU : sampleUndefinedCrd resourceCRD <> "") by discriminate.
  assert (HE : errorMsg (heap w 0%nat) <> "") by discriminate.
  split; [exact HU|]. split; [exact HE|].
  destruct (failed_builder_short_circuits Store sampleUndefinedCrd w 0%nat HU HE)
    as (w' & _ & Hcall & Hd & _ & _ & _ & _ & _ & _ & _ & _ & HC & _).
  exists w'. split; [exact HC|]. split; [apply Hcall | exact Hd].
Defined.

(** C3 fails as stated: the Builder was made with an empty name and a nil
    client.  Its errorMsg is the message of the name check, and the error
    Create returns is built from the message of the nil-client check. *)
Lemma Create_error_not_built_from_errorMsg :
  let w := after (NewBuilder None "" "prod" None httpPort) emptyWorld in
  let e := Errorf "Service builder cannot have nil apiClient" [] in
  errorMsg (heap w 0%nat) = "Service 'name' cannot be empty" /\
  value (Create sampleUndefinedCrd (Some 0%nat) w) = Some (Some 0%nat, Some e) /\
  e <> Errorf (errorMsg (heap w 0%nat)) [] /\
  Error e <> errorMsg (heap w 0%nat).
Proof.
  vm_compute. split; [reflexivity|]. split; [reflexivity|].
  split; discriminate.
Qed.

(** validate on the Builder NewBuilder makes from two empty names. *)
Lemma last_failure_is_reported_witness :
  let w := after (NewBuilder (Some storeClient) "" "" None httpPort)
             emptyWorld in
  lastErrorMsg sampleUndefinedCrd (heap w 0%nat) <> "" /\
  exists w',
    validate sampleUndefinedCrd (Some 0%nat) w =
      Ret (false, Some (Errorf "Namespace 'nsname' cannot be empty" [])) w'.
Proof.
  intro w.
  assert (HL : lastErrorMsg sampleUndefinedCrd (heap w 0%nat) <> "")
    by discriminate.
  split; [exact HL|].
  destruct (proj2 (last_failure_is_reported Store sampleUndefinedCrd) w 0%nat HL)
    as (w' & Hv & _).
  exists w'. exact Hv.
Defined.

(** C1 fails as stated.  With both names empty the first failure NewBuilder
    meets is the empty name, and validate reports the empty namespace.
    With an empty name and a nil client the first failure is the empty
    name, and validate reports the nil client. *)
Lemma first_failure_is_not_reported :
  (let w := after (NewBuilder (Some storeClient) "" "" None httpPort)
              emptyWorld in
   let e := Errorf "Namespace 'nsname' cannot be empty" [] in
   value (validate sampleUndefinedCrd (Some 0%nat) w) = Some (false, Some e) /\
   Error e <> "Service 'name' cannot be empty") /\
  (let w := after (NewBuilder None "" "prod" None httpPort) emptyWorld in
   let e := Errorf "Service builder cannot have nil apiClient" [] in
   errorMsg (heap w 0%nat) = "Service 'name' cannot be empty" /\
   value (validate sampleUndefinedCrd (Some 0%nat) w) = Some (false, Some e) /\
   Error e <> "Service 'name' cannot be empty").
Proof.
  vm_compute. split; [split; [reflexivity|discriminate]|].
  split; [reflexivity|]. split; [reflexivity|discriminate].
Qed.

(** Exists for a Service that runs: Object is the Service Get fetched. *)
Lemma Exists_stores_the_object_of_Get_witness :
  let w := runningWorld (Some storeClient) in
  exists v w',
    Exists sampleUndefinedCrd (Some 0%nat) w = Ret v w' /\
    calls w' = [CallGet "prod" "web"] /\
    Object (heap w' 0%nat) = Some webService.
Proof.
  intro w.
  destruct (Exists_stores_the_object_of_Get Store sampleUndefinedCrd w 0%nat
              webService storeClient eq_refl eq_refl eq_refl
              (Some webService) None [webService] eq_refl)
    as (v & w' & HE & Hcalls & _ & HO & _).
  exists v, w'. split; [exact HE|]. split; [exact Hcalls | exact HO].
Defined.

(** C5 fails as stated: the Get of a client that cannot reach the server
    fails, and Object is not nil after Exists but the empty Service the
    client returned with the error. *)
Lemma Object_not_nil_after_failed_Get :
  let w := webWorld (Some unreachableClient) in
  let w' := after (Exists sampleUndefinedCrd (Some 0%nat)) w in
  Definition_ (heap w 0%nat) = Some webService /\
  Services_Get unreachableClient "prod" "web" (cluster w) =
    ((Some zeroService, Some (APIError false "connection refused")), []) /\
  value (Exists sampleUndefinedCrd (Some 0%nat) w) = Some true /\
  Object (heap w' 0%nat) = Some zeroService /\
  Object (heap w' 0%nat) <> None.
Proof.
  vm_compute. repeat (split; [reflexivity|]). discriminate.
Qed.

(** Exists for a Service that does not run: Get fails with NotFound. *)
Lemma Exists_false_only_on_NotFound_witness :
  let w := webWorld (Some storeClient) in
  exists w', Exists sampleUndefinedCrd (Some 0%nat) w = Ret false w'.
Proof.
  intro w.
  destruct (Exists_false_only_on_NotFound Store sampleUndefinedCrd w 0%nat
              webService storeClient eq_refl eq_refl eq_refl
              None (Some (APIError true "not found")) [] eq_refl)
    as (v & w' & HE & Hiff & _).
  assert (Hv : v = false)
    by (apply Hiff; exists (APIError true "not found"); split; reflexivity).
  exists w'. rewrite <- Hv. exact HE.
Defined.

(** C9 fails as stated: the Get fails with an error that is not NotFound,
    Exists returns true, and Object is not nil but the empty Service the
    client returned with the error. *)
Lemma Exists_true_with_an_Object_after_failed_Get :
  let w := runningWorld (Some unreachableClient) in
  let w' := after (Exists sampleUndefinedCrd (Some 0%nat)) w in
  let e := APIError false "connection refused" in
  fst (Services_Get unreachableClient "prod" "web" (cluster w)) =
    (Some zeroService, Some e) /\
  IsNotFound e = false /\
  value (Exists sampleUndefinedCrd (Some 0%nat) w) = Some true /\
  Object (heap w' 0%nat) <> None.
Proof.
  vm_compute. repeat (split; [reflexivity|]). discriminate.
Qed.

(** Create of a Service that does not run yet: one Get, then one Create. *)
Lemma Create_only_when_missing_witness :
  let w := webWorld (Some storeClient) in
  exists w',
    Create sampleUndefinedCrd (Some 0%nat) w = Ret (Some 0%nat, None) w' /\
    calls w' = [CallGet "prod" "web"; CallCreate "prod" (Some webService)] /\
    cluster w' = [webService] /\
    Object (heap w' 0%nat) = Some webService.
Proof.
  intro w.
  destruct (proj1 (Create_only_when_missing Store sampleUndefinedCrd w 0%nat
                     webService storeClient eq_refl eq_refl eq_refl
                     None (Some (APIError true "not found")) [] eq_refl)
              (APIError true "not found") eq_refl eq_refl
              (Some webService) None [webService] eq_refl)
    as (w' & HC & H).
  exists w'. split; [exact HC | exact H].
Defined.


(** WithNodePort on a Builder whose Definition lost its ports. *)
Lemma WithNodePort_without_ports_witness :
  exists w' d',
    WithNodePort sampleUndefinedCrd (Some 0%nat) portlessWorld
      = Ret (Some 0%nat) w' /\
    errorMsg (heap w' 0%nat) = "service does not have the available ports" /\
    Definition_ (heap w' 0%nat) = Some d' /\
    Type_ (Spec d') = "NodePort".
Proof.
  destruct (WithNodePort_without_ports Store sampleUndefinedCrd portlessWorld
              0%nat (setPorts [] webService) eq_refl eq_refl eq_refl)
    as (w' & d' & HW & He & Hd & _ & Ht).
  exists w', d'. repeat split; assumption.
Defined.

(** A negative port and a target port above 65535 are accepted. *)
Lemma DefineServicePort_accepts_every_int32_witness :
  int32 (-1) /\ int32 70000 /\
  exists sp,
    DefineServicePort (-1) 70000 "TCP" = (Some sp, None) /\
    Port sp = -1 /\ IntVal (TargetPort sp) = 70000.
Proof.
  assert (H1 : int32 (-1)) by (unfold int32; lia).
  assert (H2 : int32 70000) by (unfold int32; lia).
  split; [exact H1|]. split; [exact H2|].
  destruct (DefineServicePort_accepts_every_int32 (-1) 70000 "TCP" H1 H2)
    as (_ & _ & sp & HD & _ & HP & _ & HT).
  exists sp. repeat split; assumption.
Defined.

(** C4 fails on the code.  An option that returns another Builder with its
    error makes WithOptions return that other pointer, not the receiver;
    the receiver, at address 0, records no error.  An option that returns
    nil with its error makes WithOptions panic. *)
Theorem WithOptions_returns_the_pointer_of_the_option :
  let w := webWorld (Some storeClient) in
  let w' := after (WithOptions sampleUndefinedCrd (Some 0%nat) [rejectCopy]) w in
  value (WithOptions sampleUndefinedCrd (Some 0%nat) [rejectCopy] w)
    = Some (Some 1%nat) /\
  Some 1%nat <> Some 0%nat /\
  errorMsg (heap w' 1%nat) = "unsupported option" /\
  errorMsg (heap w' 0%nat) = "" /\
  WithOptions sampleUndefinedCrd (Some 0%nat) [rejectNil] w = Panic.
Proof.
  vm_compute. split; [reflexivity|]. split; [discriminate|].
  repeat split.
Qed.

(** * Further properties of the package *)

Section Further.

Variable Cluster : Type.
Variable U : string -> string.

Implicit Types (w : World Cluster) (l : nat) (builder : ptr).

Ltac exec :=
  unfold setErrorMsg, setObject, modifyDefinition, derefDefinition,
    derefClient, derefObject, apiGet, apiCreate, apiDelete, record,
    modify, deref, bind, ret, panic in *.

(** Closes the frame conditions of a mutator that wrote to [l] only. *)
Ltac framed :=
  unfold onlyBuilder, noCall; simpl;
  rewrite ?(update_same Cluster); simpl;
  repeat split; try reflexivity; try assumption;
  try (intros; rewrite ?(update_other Cluster) by assumption; reflexivity).

Lemma onlyBuilder_refl l w : onlyBuilder l w w.
Proof. repeat split; reflexivity. Qed.

Lemma onlyBuilder_passes_client l w w' :
  onlyBuilder l w w' -> apiClient (heap w' l) = apiClient (heap w l).
Proof. intros (_ & _ & _ & _ & H). exact H. Qed.

(** ** The mutators on a Builder that passes validation *)





(** ** Errors, once recorded *)

Lemma lastErrorMsg_kept l w w' :
  onlyErrorMsg l w w' ->
  errorMsg (heap w' l) = lastErrorMsg U (heap w l) ->
  lastErrorMsg U (heap w' l) = lastErrorMsg U (heap w l).
Proof.
  intros (_ & _ & Hd & _ & Hc) He. unfold lastErrorMsg in *.
  rewrite Hc, Hd. destruct (apiClient (heap w l)); [|reflexivity].
  destruct (Definition_ (heap w l)); [exact He|reflexivity].
Qed.

(** A Builder with an error recorded and neither field nil: every mutator
    returns at once and writes nothing at all. *)
Lemma call_on_failed w l (m : Mutator Cluster) :
  Definition_ (heap w l) <> None ->
  apiClient (heap w l) <> None ->
  errorMsg (heap w l) <> "" ->
  call U m (Some l) w = Ret (Some l) w.
Proof.
  intros Hd Hc He.
  assert (Hv : validate U (Some l) w =
               Ret (false, Some (Errorf (errorMsg (heap w l)) [])) w).
  { unfold validate. exec.
    destruct (Definition_ (heap w l)); [|contradiction].
    destruct (apiClient (heap w l)); [|contradiction].
    apply String.eqb_neq in He. now rewrite He. }
  destruct (guarded_fail _ U _ _ _ _ Hv) as (_ & _ & _ & HN & HO & HT & HA & HI).
  destruct m; simpl; auto.
Qed.


(** X6.  In a fluent chain the first error is the one kept.  When a
    mutator called on a builder returns it with an error recorded (and
    Definition and apiClient non-nil), every chain of further mutators
    returns the same pointer and leaves the whole state as that mutator
    left it: no later call overwrites errorMsg, changes the Definition or
    runs an option. *)
Theorem chain_keeps_the_first_error w l (m : Mutator Cluster) w1 :
  call U m (Some l) w = Ret (Some l) w1 ->
  Definition_ (heap w1 l) <> None ->
  apiClient (heap w1 l) <> None ->
  errorMsg (heap w1 l) <> "" ->
  forall ms, chain U (m :: ms) (Some l) w = Ret (Some l) w1.
Proof.
  intros Hm Hd Hc He ms. simpl. unfold bind. rewrite Hm.
  induction ms as [|m' ms IH]; [reflexivity|].
  simpl. unfold bind. rewrite (call_on_failed w1 l m' Hd Hc He). exact IH.
Qed.

(** ** How the mutators compose *)

Lemma passes_intro (b : Builder Cluster) d c :
  Definition_ b = Some d -> apiClient b = Some c -> errorMsg b = "" ->
  passes b = true.
Proof. intros Hd Hc He. unfold passes. now rewrite Hd, Hc, He. Qed.

(** The Definition and the errorMsg WithNodePort leaves. *)
Lemma WithNodePort_run w l d :
  passes (heap w l) = true ->
  Definition_ (heap w l) = Some d ->
  exists w',
    WithNodePort U (Some l) w = Ret (Some l) w' /\
    onlyBuilder l w w' /\
    Definition_ (heap w' l) =
      Some match Ports (Spec d) with
           | [] => setType "NodePort" d
           | p :: ps =>
               setPorts (setNodePort (Port p) p :: ps) (setType "NodePort" d)
           end /\
    errorMsg (heap w' l) =
      match Ports (Spec d) with
      | [] => "service does not have the available ports"
      | _ :: _ => ""
      end.
Proof.
  intros Hp Hd. destruct (passes_fields _ _ Hp) as (d0 & c & _ & Hc & He).
  unfold WithNodePort, bind at 1. rewrite (validate_passes _ U w l Hp). simpl.
  exec. rewrite Hd. simpl. rewrite !(update_same Cluster). simpl.
  destruct (Ports (Spec d)) as [|p ps]; simpl;
    rewrite ?(update_same Cluster); simpl;
    (eexists; split; [reflexivity|]); (split; [framed|]);
    simpl; rewrite !(update_same Cluster); simpl; rewrite ?He; split; reflexivity.
Qed.

(** The same for WithExternalTrafficPolicy with a policy. *)
Lemma WithExternalTrafficPolicy_run w l d policyType :
  passes (heap w l) = true ->
  Definition_ (heap w l) = Some d ->
  String.eqb policyType "" = false ->
  exists w',
    WithExternalTrafficPolicy U (Some l) policyType w = Ret (Some l) w' /\
    onlyBuilder l w w' /\
    Definition_ (heap w' l) =
      Some (setExternalTrafficPolicy policyType (setType "LoadBalancer" d)) /\
    errorMsg (heap w' l) = "".
Proof.
  intros Hp Hd Hpol. destruct (passes_fields _ _ Hp) as (d0 & c & _ & Hc & He).
  unfold WithExternalTrafficPolicy, bind at 1.
  rewrite (validate_passes _ U w l Hp). simpl. exec. rewrite Hpol.
  repeat (simpl; rewrite ?(update_same Cluster), ?Hd, ?He).
  eexists. split; [reflexivity|]. split; [framed|].
  simpl. rewrite !(update_same Cluster). simpl. rewrite ?He. split; reflexivity.
Qed.

Lemma passes_after l w w' d :
  passes (heap w l) = true ->
  onlyBuilder l w w' ->
  Definition_ (heap w' l) = Some d ->
  errorMsg (heap w' l) = "" ->
  passes (heap w' l) = true.
Proof.
  intros Hp Hb Hd He. destruct (passes_fields _ _ Hp) as (d0 & c & _ & Hc & _).
  apply (passes_intro _ d c); [exact Hd| |exact He].
  rewrite (onlyBuilder_passes_client _ _ _ Hb). exact Hc.
Qed.

(** X7.  WithNodePort is idempotent: called a second time on any builder,
    valid or not, with ports or without, it returns the receiver again and
    leaves the Definition and the errorMsg the first call left. *)
Theorem WithNodePort_idempotent w l :
  U resourceCRD <> "" ->
  exists w1 w2,
    WithNodePort U (Some l) w = Ret (Some l) w1 /\
    WithNodePort U (Some l) w1 = Ret (Some l) w2 /\
    Definition_ (heap w2 l) = Definition_ (heap w1 l) /\
    errorMsg (heap w2 l) = errorMsg (heap w1 l).
Proof.
  intro HU. destruct (passes_or_fails _ U (heap w l) HU) as [Hp|Hf].
  - destruct (passes_fields _ _ Hp) as (d & c & Hd & Hc & He).
    destruct (WithNodePort_run w l d Hp Hd) as (w1 & H1 & Hb1 & Hd1 & He1).
    exists w1. destruct (Ports (Spec d)) as [|p ps] eqn:HP.
    + exists w1. split; [exact H1|]. split; [|split; reflexivity].
      apply (call_on_failed w1 l CallWithNodePort).
      * rewrite Hd1. discriminate.
      * rewrite (onlyBuilder_passes_client _ _ _ Hb1), Hc. discriminate.
      * rewrite He1. discriminate.
    + assert (Hp1 : passes (heap w1 l) = true)
        by (exact (passes_after l w w1 _ Hp Hb1 Hd1 He1)).
      destruct (WithNodePort_run w1 l _ Hp1 Hd1) as (w2 & H2 & _ & Hd2 & He2).
      exists w2. split; [exact H1|]. split; [exact H2|].
      rewrite Hd2, He2, Hd1, He1. simpl. split; [|reflexivity].
      destruct d as [meta spec]; destruct spec; destruct p; reflexivity.
  - destruct (validate_fails _ U w l Hf) as (w1 & Hv1 & _ & Ho1 & Hm1).
    assert (Hf1 : lastErrorMsg U (heap w1 l) <> "")
      by (rewrite (lastErrorMsg_kept l w w1 Ho1 Hm1); exact Hf).
    destruct (validate_fails _ U w1 l Hf1) as (w2 & Hv2 & _ & Ho2 & Hm2).
    exists w1, w2.
    destruct (guarded_fail _ U _ _ _ _ Hv1) as (_ & _ & _ & HN1 & _).
    destruct (guarded_fail _ U _ _ _ _ Hv2) as (_ & _ & _ & HN2 & _).
    split; [exact HN1|]. split; [exact HN2|].
    split; [apply Ho2|].
    rewrite Hm2, Hm1. exact (lastErrorMsg_kept l w w1 Ho1 Hm1).
Qed.

(** X8.  WithNodePort and WithExternalTrafficPolicy both assign Spec.Type,
    so in a chain the later call decides it.  On a valid builder with a
    port and for a non-empty policy, both orders record no error, set the
    policy and set the NodePort of the first port; WithNodePort first ends
    with Type "LoadBalancer", WithExternalTrafficPolicy first ends with
    Type "NodePort", and the two Definitions differ in nothing else. *)
Theorem NodePort_and_ExternalTrafficPolicy_order w l d p ps policyType :
  passes (heap w l) = true ->
  Definition_ (heap w l) = Some d ->
  Ports (Spec d) = p :: ps ->
  String.eqb policyType "" = false ->
  exists w1 w2 d1 d2,
    chain U [CallWithNodePort; CallWithExternalTrafficPolicy policyType]
      (Some l) w = Ret (Some l) w1 /\
    chain U [CallWithExternalTrafficPolicy policyType; CallWithNodePort]
      (Some l) w = Ret (Some l) w2 /\
    Definition_ (heap w1 l) = Some d1 /\
    Definition_ (heap w2 l) = Some d2 /\
    errorMsg (heap w1 l) = "" /\
    errorMsg (heap w2 l) = "" /\
    Type_ (Spec d1) = "LoadBalancer" /\
    Type_ (Spec d2) = "NodePort" /\
    d2 = setType "NodePort" d1 /\
    ExternalTrafficPolicy (Spec d1) = policyType /\
    Ports (Spec d1) = setNodePort (Port p) p :: ps.
Proof.
  intros Hp Hd HP Hpol.
  destruct (WithNodePort_run w l d Hp Hd) as (wa & Ha & Hba & Hda & Hea).
  rewrite HP in Hda, Hea.
  assert (Hpa : passes (heap wa l) = true)
    by (exact (passes_after l w wa _ Hp Hba Hda Hea)).
  destruct (WithExternalTrafficPolicy_run wa l _ policyType Hpa Hda Hpol)
    as (w1 & H1 & _ & Hd1 & He1).
  destruct (WithExternalTrafficPolicy_run w l d policyType Hp Hd Hpol)
    as (wb & Hb & Hbb & Hdb & Heb).
  assert (Hpb : passes (heap wb l) = true)
    by (exact (passes_after l w wb _ Hp Hbb Hdb Heb)).
  destruct (WithNodePort_run wb l _ Hpb Hdb) as (w2 & H2 & _ & Hd2 & He2).
  simpl in Hd2, He2. rewrite HP in Hd2, He2.
  exists w1, w2. eexists; eexists.
  split; [simpl; unfold bind; rewrite Ha, H1; reflexivity|].
  split; [simpl; unfold bind; rewrite Hb, H2; reflexivity|].
  split; [exact Hd1|]. split; [exact Hd2|].
  split; [exact He1|]. split; [exact He2|].
  repeat split.
Qed.

(** ** WithOptions *)





(** ** NewBuilder *)

(** X11.  NewBuilder never returns nil and never calls the cluster: it
    allocates a new Builder and leaves every other one alone.  The Builder
    holds the client given, a nil Object and a Definition with the name,
    namespace and labels given and the one port given, of no type.  It
    passes validation exactly when the name and the namespace are not
    empty and the client is not nil. *)
Theorem NewBuilder_builds (client : option (Settings Cluster)) name nsname
    labels servicePort w :
  exists w' d,
    NewBuilder client name nsname labels servicePort w = Ret (Some (next w)) w' /\
    noCall w w' /\
    next w' = S (next w) /\
    (forall l, l <> next w -> heap w' l = heap w l) /\
    apiClient (heap w' (next w)) = client /\
    Object (heap w' (next w)) = None /\
    Definition_ (heap w' (next w)) = Some d /\
    Name (Meta d) = name /\
    Namespace (Meta d) = nsname /\
    Annotations (Meta d) = None /\
    Selector (Spec d) = labels /\
    Ports (Spec d) = [servicePort] /\
    Type_ (Spec d) = "" /\
    (passes (heap w' (next w)) = true <->
     name <> "" /\ nsname <> "" /\ client <> None).
Proof.
  unfold NewBuilder, alloc.
  eexists; eexists. split; [reflexivity|]. simpl.
  rewrite (update_same Cluster).
  split; [split; reflexivity|]. split; [reflexivity|].
  split; [intros; now apply (update_other Cluster)|].
  destruct (String.eqb_spec name ""), (String.eqb_spec nsname "");
    simpl; repeat (split; [reflexivity|]);
    unfold passes; simpl; destruct client; simpl;
    (split; [intro H; try discriminate H; repeat split; congruence
            |intros (H1 & H2 & H3); congruence]).
Qed.

(** ** Pull *)

(** Pull, as the allocation of its Builder followed by Exists on it. *)
Lemma Pull_eq (client : option (Settings Cluster)) name nsname w :
  Pull U client name nsname w =
    match Exists U (Some (next w))
            {| heap := update (next w) (Pull_builder client name nsname) (heap w);
               next := S (next w);
               cluster := cluster w; calls := calls w |}
    with
    | Ret true w1 =>
        Ret (Some (next w), None)
            {| heap := update (next w)
                         (withDefinition (Object (heap w1 (next w)))
                            (heap w1 (next w)))
                         (heap w1);
               next := next w1; cluster := cluster w1; calls := calls w1 |}
    | Ret false w1 => Ret (None, Some (Pull_error name nsname)) w1
    | Panic => Panic
    end.
Proof.
  unfold Pull, Pull_builder, Pull_errorMsg.
  destruct (String.eqb name ""), (String.eqb nsname "");
    unfold bind at 1; unfold alloc at 1; unfold bind at 1;
    unfold withErrorMsg; cbn [Definition_ Object errorMsg apiClient];
    match goal with
    | |- context [Exists U ?p ?w0] =>
        destruct (Exists U p w0) as [[|] w1|]; reflexivity
    end.
Qed.

(** X12.  Pull with an empty name, an empty namespace or a nil client
    returns a nil builder and the error "service object ... doesn't exist
    in namespace ...", without any cluster API call: the message of the
    failed check stays in the Builder it drops and is not reported. *)
Theorem Pull_rejects_without_a_call (client : option (Settings Cluster))
    name nsname w :
  name = "" \/ nsname = "" \/ client = None ->
  exists w',
    Pull U client name nsname w =
      Ret (None, Some (Pull_error name nsname)) w' /\
    noCall w w' /\
    (forall l, l <> next w -> heap w' l = heap w l).
Proof.
  intro H.
  pose proof (Pull_eq client name nsname w) as HP.
  set (w0 := {| heap := update (next w) (Pull_builder client name nsname) (heap w);
                next := S (next w);
                cluster := cluster w; calls := calls w |}) in HP.
  assert (Hb : heap w0 (next w) = Pull_builder client name nsname)
    by apply (update_same Cluster).
  assert (Hf : lastErrorMsg U (heap w0 (next w)) <> "").
  { rewrite Hb. unfold lastErrorMsg, Pull_builder. simpl.
    destruct client; [|apply nil_apiClient_message_nonempty].
    unfold Pull_errorMsg.
    destruct H as [H|[H|H]]; [| |discriminate]; subst; simpl;
      [destruct (String.eqb nsname "")|]; discriminate. }
  destruct (validate_fails _ U w0 (next w) Hf) as (w' & Hv & Hcall & Ho & _).
  destruct (guarded_fail _ U _ _ _ _ Hv) as (HE & _).
  rewrite HE in HP. exists w'. split; [exact HP|].
  split; [exact Hcall|].
  intros l Hl. destruct Ho as (_ & Hother & _).
  rewrite (Hother l Hl). apply (update_other Cluster). exact Hl.
Qed.

(** Pull on inputs that pass its checks: one Get for the name given. *)
Lemma Pull_valid (c : Settings Cluster) name nsname w :
  name <> "" -> nsname <> "" ->
  forall object gerr cl,
    Services_Get c nsname name (cluster w) = ((object, gerr), cl) ->
    exists w',
      Pull U (Some c) name nsname w =
        (if existsVerdict gerr then Ret (Some (next w), None) w'
         else Ret (None, Some (Pull_error name nsname)) w') /\
      calls w' = (calls w ++ [CallGet nsname name])%list /\
      cluster w' = cl /\
      next w' = S (next w) /\
      (forall l, l <> next w -> heap w' l = heap w l) /\
      Object (heap w' (next w)) = object /\
      apiClient (heap w' (next w)) = Some c /\
      errorMsg (heap w' (next w)) = "" /\
      (existsVerdict gerr = true -> Definition_ (heap w' (next w)) = object).
Proof.
  intros Hn Hns object gerr cl HG.
  pose proof (Pull_eq (Some c) name nsname w) as HP.
  remember (Pull_builder (Some c) name nsname) as b0 eqn:Eb.
  assert (Hd : exists d0, Definition_ b0 = Some d0 /\
                          Name (Meta d0) = name /\ Namespace (Meta d0) = nsname)
    by (subst b0; eexists; repeat split).
  destruct Hd as (d0 & Hd & Hname & Hnsname).
  assert (Hc : apiClient b0 = Some c) by (subst b0; reflexivity).
  assert (He0 : errorMsg b0 = "").
  { subst b0. unfold Pull_builder, Pull_errorMsg. simpl.
    apply String.eqb_neq in Hn, Hns. now rewrite Hn, Hns. }
  clear Eb.
  set (w0 := {| heap := update (next w) b0 (heap w); next := S (next w);
                cluster := cluster w; calls := calls w |}) in HP.
  assert (Hb : heap w0 (next w) = b0) by apply (update_same Cluster).
  assert (HE := Exists_spec _ U w0 (next w) d0 c).
  rewrite Hb in HE. specialize (HE Hd Hc He0).
  rewrite Hname, Hnsname in HE. simpl cluster in HE. rewrite HG in HE.
  simpl in HE. rewrite HE in HP. clear HE.
  unfold fetched in HP. rewrite Hname, Hnsname in HP. simpl in HP.
  rewrite HG in HP. simpl in HP. rewrite !(update_same Cluster) in HP.
  destruct (existsVerdict gerr); simpl in HP;
    (eexists; split; [exact HP|]); simpl;
    rewrite ?(update_same Cluster); simpl; rewrite ?He0, ?Hc;
    (split; [reflexivity|]); (split; [reflexivity|]); (split; [reflexivity|]);
    (split; [intros l Hl; rewrite ?(update_other Cluster) by exact Hl;
             reflexivity|]);
    (split; [reflexivity|]); (split; [reflexivity|]); (split; [reflexivity|]);
    intro H; [reflexivity | discriminate H].
Qed.

(** X13.  Pull with a name, a namespace and a client makes one Get for
    them.  When the Get fails with NotFound, Pull returns a nil builder
    and the error "service object ... doesn't exist in namespace ...", and
    no Builder that was there before is written. *)
Theorem Pull_not_found (c : Settings Cluster) name nsname w e object cl :
  name <> "" -> nsname <> "" ->
  Services_Get c nsname name (cluster w) = ((object, Some e), cl) ->
  IsNotFound e = true ->
  exists w',
    Pull U (Some c) name nsname w =
      Ret (None, Some (Pull_error name nsname)) w' /\
    calls w' = (calls w ++ [CallGet nsname name])%list /\
    cluster w' = cl /\
    (forall l, l <> next w -> heap w' l = heap w l).
Proof.
  intros Hn Hns HG Hnf.
  destruct (Pull_valid c name nsname w Hn Hns _ _ _ HG)
    as (w' & HP & Hcalls & Hcl & _ & Hother & _).
  simpl in HP. rewrite Hnf in HP. simpl in HP.
  exists w'. repeat split; assumption.
Qed.

(** X14.  When the Get of Pull does not fail with NotFound, Pull returns a
    new, non-nil builder and a nil error.  The builder holds the client,
    no error, and the object the Get returned both as Object and as
    Definition, so after a Get that succeeded it passes validation and its
    Definition is the live Service. *)
Theorem Pull_found (c : Settings Cluster) name nsname w object gerr cl :
  name <> "" -> nsname <> "" ->
  Services_Get c nsname name (cluster w) = ((object, gerr), cl) ->
  existsVerdict gerr = true ->
  exists w',
    Pull U (Some c) name nsname w = Ret (Some (next w), None) w' /\
    calls w' = (calls w ++ [CallGet nsname name])%list /\
    cluster w' = cl /\
    (forall l, l <> next w -> heap w' l = heap w l) /\
    Definition_ (heap w' (next w)) = object /\
    Object (heap w' (next w)) = object /\
    apiClient (heap w' (next w)) = Some c /\
    errorMsg (heap w' (next w)) = "" /\
    (object <> None -> passes (heap w' (next w)) = true).
Proof.
  intros Hn Hns HG Hv.
  destruct (Pull_valid c name nsname w Hn Hns _ _ _ HG)
    as (w' & HP & Hcalls & Hcl & _ & Hother & Hobj & Hc & He & Hd).
  rewrite Hv in HP. specialize (Hd Hv).
  exists w'. repeat (split; [assumption|]).
  intro Hne. destruct object as [o|]; [|contradiction].
  exact (passes_intro _ o c Hd Hc He).
Qed.

(** X15.  A Get that fails for another reason than NotFound does not make
    Pull fail: Pull returns a builder and a nil error, and the error of
    the Get is dropped.  If the client returned no object with that
    error, the builder has a nil Definition; Create on it then fails
    validation with the message for an undefined Definition, without a
    panic and without a further cluster API call. *)
Theorem Pull_survives_a_failed_Get (c : Settings Cluster) name nsname w e cl :
  U resourceCRD <> "" ->
  name <> "" -> nsname <> "" ->
  Services_Get c nsname name (cluster w) = ((None, Some e), cl) ->
  IsNotFound e = false ->
  exists w1 w2,
    Pull U (Some c) name nsname w = Ret (Some (next w), None) w1 /\
    Definition_ (heap w1 (next w)) = None /\
    Create U (Some (next w)) w1 =
      Ret (Some (next w), Some (Errorf (U resourceCRD) [])) w2 /\
    noCall w1 w2.
Proof.
  intros HU Hn Hns HG Hnf.
  destruct (Pull_valid c name nsname w Hn Hns _ _ _ HG)
    as (w1 & HP & _ & _ & _ & _ & _ & Hc & _ & Hd).
  simpl in HP, Hd. rewrite Hnf in HP, Hd. simpl in HP. specialize (Hd eq_refl).
  assert (HL : lastErrorMsg U (heap w1 (next w)) = U resourceCRD)
    by (unfold lastErrorMsg; now rewrite Hc, Hd).
  assert (Hf : lastErrorMsg U (heap w1 (next w)) <> "") by (now rewrite HL).
  destruct (validate_fails _ U w1 (next w) Hf) as (w2 & Hv & Hcall & _).
  destruct (guarded_fail _ U _ _ _ _ Hv) as (_ & HC & _).
  rewrite HL in HC.
  exists w1, w2. repeat split; try assumption; apply Hcall.
Qed.

(** ** Exists, Create and Delete on any builder *)

(** Create on a Builder that passes validation, with what it writes. *)
Lemma Create_valid w l d c :
  Definition_ (heap w l) = Some d ->
  apiClient (heap w l) = Some c ->
  errorMsg (heap w l) = "" ->
  forall object gerr cl1,
    Services_Get c (Namespace (Meta d)) (Name (Meta d)) (cluster w)
      = ((object, gerr), cl1) ->
  forall created cerr cl2,
    Services_Create c (Namespace (Meta d)) (Some d) cl1
      = ((created, cerr), cl2) ->
  exists w',
    Create U (Some l) w =
      Ret (Some l, if existsVerdict gerr then None else cerr) w' /\
    calls w' =
      (calls w ++
       CallGet (Namespace (Meta d)) (Name (Meta d))
       :: if existsVerdict gerr then []
          else [CallCreate (Namespace (Meta d)) (Some d)])%list /\
    cluster w' = (if existsVerdict gerr then cl1 else cl2) /\
    next w' = next w /\
    (forall l', l' <> l -> heap w' l' = heap w l') /\
    Definition_ (heap w' l) = Some d /\
    apiClient (heap w' l) = Some c /\
    errorMsg (heap w' l) = "" /\
    Object (heap w' l) = if existsVerdict gerr then object else created.
Proof.
  intros Hd Hc He object gerr cl1 HG created cerr cl2 HCr.
  assert (Hp : passes (heap w l) = true) by exact (passes_intro _ d c Hd Hc He).
  unfold Create, bind at 1. rewrite (validate_passes _ U w l Hp). simpl.
  unfold bind at 1. unfold derefDefinition at 1. unfold deref, bind at 1.
  rewrite Hd. unfold ret at 1. unfold bind at 1.
  rewrite (Exists_spec _ U w l d c Hd Hc He), HG. simpl.
  destruct (existsVerdict gerr); simpl.
  - eexists. split; [reflexivity|].
    rewrite (fetched_heap Cluster). unfold fetched. rewrite HG. simpl.
    rewrite Hd, Hc, He. repeat split.
    intros l' Hl. now apply (update_other Cluster).
  - exec.
    repeat (rewrite ?(fetched_heap Cluster), ?(update_same Cluster); simpl;
            rewrite ?Hd, ?Hc; simpl).
    unfold fetched. simpl. rewrite HG. simpl. rewrite HCr. simpl.
    eexists. split; [reflexivity|]. simpl. rewrite !(update_same Cluster).
    simpl. rewrite Hd, Hc, He, <- app_assoc. repeat split.
    intros l' Hl. now rewrite !(update_other Cluster) by exact Hl.
Qed.

(** Delete on a Builder that passes validation, when Exists answers true
    and the Get returned an object. *)
Lemma Delete_valid w l d c :
  Definition_ (heap w l) = Some d ->
  apiClient (heap w l) = Some c ->
  errorMsg (heap w l) = "" ->
  forall o gerr cl1,
    Services_Get c (Namespace (Meta d)) (Name (Meta d)) (cluster w)
      = ((Some o, gerr), cl1) ->
    existsVerdict gerr = true ->
  forall derr cl2,
    Services_Delete c (Namespace (Meta d)) (Name (Meta o)) cl1 = (derr, cl2) ->
  exists w',
    Delete U (Some l) w = Ret derr w' /\
    calls w' =
      (calls w ++ [CallGet (Namespace (Meta d)) (Name (Meta d));
                   CallDelete (Namespace (Meta d)) (Name (Meta o))])%list /\
    cluster w' = cl2 /\
    next w' = next w /\
    (forall l', l' <> l -> heap w' l' = heap w l') /\
    Definition_ (heap w' l) = Some d /\
    apiClient (heap w' l) = Some c /\
    errorMsg (heap w' l) = "" /\
    Object (heap w' l) = match derr with
                         | None => None
                         | Some _ => Some o
                         end.
Proof.
  intros Hd Hc He o gerr cl1 HG Hv derr cl2 HDel.
  rewrite (Delete_passes _ U w l d c Hd Hc He), HG. simpl. rewrite Hv. simpl.
  exec.
  repeat (rewrite ?(fetched_heap Cluster), ?(update_same Cluster); simpl;
          rewrite ?Hd, ?Hc; simpl).
  rewrite HG. simpl.
  unfold fetched. simpl. rewrite HG. simpl. rewrite HDel. simpl.
  destruct derr as [e|]; simpl;
    (eexists; split; [reflexivity|]); simpl;
    rewrite ?(update_same Cluster); simpl;
    rewrite Hd, Hc, He, <- app_assoc; repeat split;
    intros l' Hl; now rewrite !(update_other Cluster) by exact Hl.
Qed.

(** X16.  Exists and Create never panic, whatever the builder (nil,
    invalid or valid) and whatever the client answers.  Create always
    returns the pointer it was called on.  Exists makes at most one
    cluster API call, a Get; Create makes at most two, a Get and a Create,
    and never a Delete. *)
Theorem Exists_and_Create_never_panic builder w :
  U resourceCRD <> "" ->
  (exists v w' cs,
     Exists U builder w = Ret v w' /\
     calls w' = (calls w ++ cs)%list /\
     (cs = [] \/ exists ns name, cs = [CallGet ns name])) /\
  (exists e w' cs,
     Create U builder w = Ret (builder, e) w' /\
     calls w' = (calls w ++ cs)%list /\
     (length cs <= 2)%nat /\
     Forall notDelete cs).
Proof.
  intro HU.
  assert (Hfail : forall e w', validate U builder w = Ret (false, e) w' ->
            noCall w w' ->
            (exists v w' cs,
               Exists U builder w = Ret v w' /\
               calls w' = (calls w ++ cs)%list /\
               (cs = [] \/ exists ns name, cs = [CallGet ns name])) /\
            (exists e w' cs,
               Create U builder w = Ret (builder, e) w' /\
               calls w' = (calls w ++ cs)%list /\
               (length cs <= 2)%nat /\
               Forall notDelete cs)).
  { intros e w' Hv (Hcalls & _).
    destruct (guarded_fail _ U _ _ _ _ Hv) as (HE & HC & _).
    split.
    - exists false, w', []. rewrite app_nil_r.
      split; [exact HE|]. split; [exact Hcalls|]. now left.
    - exists e, w', []. rewrite app_nil_r.
      split; [exact HC|]. split; [exact Hcalls|].
      split; [simpl; lia|constructor]. }
  destruct builder as [l|];
    [|exact (Hfail _ _ (validate_nil _ U w) (noCall_refl _ w))].
  destruct (passes_or_fails _ U (heap w l) HU) as [Hp|Hf].
  2:{ destruct (validate_fails _ U w l Hf) as (w' & Hv & Hcall & _).
      exact (Hfail _ _ Hv Hcall). }
  clear Hfail. destruct (passes_fields _ _ Hp) as (d & c & Hd & Hc & He).
  destruct (Services_Get c (Namespace (Meta d)) (Name (Meta d)) (cluster w))
    as [[object gerr] cl1] eqn:HG.
  split.
  - exists (existsVerdict gerr), (fetched l c d w),
      [CallGet (Namespace (Meta d)) (Name (Meta d))].
    split; [rewrite (Exists_spec _ U w l d c Hd Hc He), HG; reflexivity|].
    split; [reflexivity|]. right. eauto.
  - destruct (Services_Create c (Namespace (Meta d)) (Some d) cl1)
      as [[created cerr] cl2] eqn:HCr.
    destruct (Create_valid w l d c Hd Hc He _ _ _ HG _ _ _ HCr)
      as (w' & HC & Hcalls & _).
    eexists; exists w'; eexists.
    split; [exact HC|]. split; [exact Hcalls|].
    destruct (existsVerdict gerr); simpl; (split; [lia|]);
      repeat constructor.
Qed.

(** X17.  Delete panics in exactly one situation: the builder passes
    validation, Exists answers true, and the Get returned no object, which
    happens when the Get fails otherwise than with NotFound and the client
    returns nil with the error.  Delete then reads the name of the nil
    Object. *)
Theorem Delete_panics_exactly_without_object builder w :
  U resourceCRD <> "" ->
  (Delete U builder w = Panic <->
   exists l d c,
     builder = Some l /\
     Definition_ (heap w l) = Some d /\
     apiClient (heap w l) = Some c /\
     errorMsg (heap w l) = "" /\
     let r := Services_Get c (Namespace (Meta d)) (Name (Meta d)) (cluster w) in
     fst (fst r) = None /\ existsVerdict (snd (fst r)) = true).
Proof.
  intro HU. split.
  - intro HP. destruct builder as [l|].
    + destruct (passes_or_fails _ U (heap w l) HU) as [Hp|Hf].
      * destruct (passes_fields _ _ Hp) as (d & c & Hd & Hc & He).
        exists l, d, c. repeat (split; [assumption || reflexivity|]).
        destruct (Services_Get c (Namespace (Meta d)) (Name (Meta d)) (cluster w))
          as [[object gerr] cl1] eqn:HG. simpl.
        destruct (existsVerdict gerr) eqn:Hv.
        -- destruct object as [o|]; [|split; reflexivity].
           destruct (Services_Delete c (Namespace (Meta d)) (Name (Meta o)) cl1)
             as [derr cl2] eqn:HDel.
           destruct (Delete_valid w l d c Hd Hc He _ _ _ HG Hv _ _ HDel)
             as (w' & HD & _).
           rewrite HD in HP. discriminate.
        -- rewrite (Delete_passes _ U w l d c Hd Hc He), HG in HP.
           simpl in HP. rewrite Hv in HP. discriminate.
      * destruct (validate_fails _ U w l Hf) as (w' & Hv & _).
        destruct (guarded_fail _ U _ _ _ _ Hv) as (_ & _ & HD & _).
        rewrite HD in HP. discriminate.
    + destruct (guarded_fail _ U _ _ _ _ (validate_nil _ U w)) as (_ & _ & HD & _).
      rewrite HD in HP. discriminate.
  - intros (l & d & c & -> & Hd & Hc & He & Hr).
    destruct (Services_Get c (Namespace (Meta d)) (Name (Meta d)) (cluster w))
      as [[object gerr] cl1] eqn:HG. simpl in Hr. destruct Hr as (-> & Hv).
    rewrite (Delete_passes _ U w l d c Hd Hc He), HG. simpl. rewrite Hv. simpl.
    exec.
    repeat (rewrite ?(fetched_heap Cluster), ?(update_same Cluster); simpl;
            rewrite ?Hd, ?Hc; simpl).
    rewrite HG. reflexivity.
Qed.

(** X18.  A builder can be used again after Delete.  A successful Delete
    clears Object and keeps the Definition, the client and an empty
    errorMsg, so when the next Get reports NotFound, Create sends the same
    Definition again: the four calls are Get, Delete, Get, Create, and
    Object ends as the object Create returned. *)
Theorem Create_after_Delete w l d c o gerr cl1 cl2 object2 e2 cl3
    created cerr cl4 :
  Definition_ (heap w l) = Some d ->
  apiClient (heap w l) = Some c ->
  errorMsg (heap w l) = "" ->
  Services_Get c (Namespace (Meta d)) (Name (Meta d)) (cluster w)
    = ((Some o, gerr), cl1) ->
  existsVerdict gerr = true ->
  Services_Delete c (Namespace (Meta d)) (Name (Meta o)) cl1 = (None, cl2) ->
  Services_Get c (Namespace (Meta d)) (Name (Meta d)) cl2
    = ((object2, Some e2), cl3) ->
  IsNotFound e2 = true ->
  Services_Create c (Namespace (Meta d)) (Some d) cl3 = ((created, cerr), cl4) ->
  exists w1 w2,
    Delete U (Some l) w = Ret None w1 /\
    Object (heap w1 l) = None /\
    Create U (Some l) w1 = Ret (Some l, cerr) w2 /\
    calls w2 =
      (calls w ++ [CallGet (Namespace (Meta d)) (Name (Meta d));
                   CallDelete (Namespace (Meta d)) (Name (Meta o));
                   CallGet (Namespace (Meta d)) (Name (Meta d));
                   CallCreate (Namespace (Meta d)) (Some d)])%list /\
    cluster w2 = cl4 /\
    Definition_ (heap w2 l) = Some d /\
    Object (heap w2 l) = created.
Proof.
  intros Hd Hc He HG1 Hv1 HDel HG2 Hnf HCr.
  destruct (Delete_valid w l d c Hd Hc He _ _ _ HG1 Hv1 _ _ HDel)
    as (w1 & HD & Hcalls1 & Hcl1 & _ & _ & Hd1 & Hc1 & He1 & Ho1).
  rewrite <- Hcl1 in HG2.
  destruct (Create_valid w1 l d c Hd1 Hc1 He1 _ _ _ HG2 _ _ _ HCr)
    as (w2 & HC & Hcalls2 & Hcl2 & _ & _ & Hd2 & _ & _ & Ho2).
  simpl in HC, Hcalls2, Hcl2, Ho2. rewrite Hnf in HC, Hcalls2, Hcl2, Ho2.
  simpl in HC, Hcalls2, Hcl2, Ho2.
  exists w1, w2. split; [exact HD|]. split; [exact Ho1|].
  split; [exact HC|].
  split; [rewrite Hcalls2, Hcalls1, <- app_assoc; reflexivity|].
  repeat split; assumption.
Qed.

(** ** From DefineServicePort to a NodePort service *)

(** X19.  The usual construction composes as follows.  For every port and
    target port, out of range ones included, the ServicePort of
    DefineServicePort given to NewBuilder with a name, a namespace and a
    client, followed by WithNodePort, leaves a builder with no error whose
    Definition has Type "NodePort" and one port, with the protocol, port
    and target port given and its NodePort equal to the port. *)
Theorem DefineServicePort_NewBuilder_WithNodePort (c : Settings Cluster)
    name nsname labels port targetPort protocol w :
  name <> "" -> nsname <> "" ->
  exists sp w1 w2 d,
    DefineServicePort port targetPort protocol = (Some sp, None) /\
    NewBuilder (Some c) name nsname labels sp w = Ret (Some (next w)) w1 /\
    WithNodePort U (Some (next w)) w1 = Ret (Some (next w)) w2 /\
    noCall w w2 /\
    errorMsg (heap w2 (next w)) = "" /\
    Definition_ (heap w2 (next w)) = Some d /\
    Name (Meta d) = name /\
    Namespace (Meta d) = nsname /\
    Type_ (Spec d) = "NodePort" /\
    Ports (Spec d) =
      [{| Protocol_ := protocol; Port := port;
          TargetPort := {| Kind := Int; IntVal := targetPort; StrVal := "" |};
          NodePort := port |}].
Proof.
  intros Hn Hns.
  assert (HD : DefineServicePort port targetPort protocol =
               (Some {| Protocol_ := protocol; Port := port;
                        TargetPort := {| Kind := Int; IntVal := targetPort;
                                         StrVal := "" |};
                        NodePort := 0 |}, None))
    by (unfold DefineServicePort; now rewrite !isValidPort_true).
  eexists. 
  destruct (NewBuilder_spec _ (Some c) name nsname labels
              {| Protocol_ := protocol; Port := port;
                 TargetPort := {| Kind := Int; IntVal := targetPort;
                                  StrVal := "" |};
                 NodePort := 0 |} w)
    as (w1 & HN & Hcall1 & He1 & Hc1 & _ & d1 & Hd1 & Hname & Hnsname & HP1).
  assert (He1' : errorMsg (heap w1 (next w)) = "").
  { rewrite He1. unfold NewBuilder_errorMsg.
    apply String.eqb_neq in Hn, Hns. now rewrite Hn, Hns. }
  assert (Hp1 : passes (heap w1 (next w)) = true)
    by exact (passes_intro _ d1 c Hd1 Hc1 He1').
  destruct (WithNodePort_run w1 (next w) d1 Hp1 Hd1)
    as (w2 & HW & Hb & Hd2 & He2).
  rewrite HP1 in Hd2, He2.
  exists w1, w2. eexists.
  split; [exact HD|]. split; [exact HN|]. split; [exact HW|].
  split.
  { destruct Hb as ((Hca & Hcl) & _). destruct Hcall1 as (Hca1 & Hcl1).
    split; congruence. }
  split; [exact He2|]. split; [exact Hd2|].
  simpl. repeat split; assumption.
Qed.

(** ** What the operations leave alone *)



(** Delete reads the name of a nil Object when Exists answered true and
    the Get returned no object. *)
Lemma Delete_without_object w l d c :
  Definition_ (heap w l) = Some d ->
  apiClient (heap w l) = Some c ->
  errorMsg (heap w l) = "" ->
  forall gerr cl1,
    Services_Get c (Namespace (Meta d)) (Name (Meta d)) (cluster w)
      = ((None, gerr), cl1) ->
    existsVerdict gerr = true ->
    Delete U (Some l) w = Panic.
Proof.
  intros Hd Hc He gerr cl1 HG Hv.
  rewrite (Delete_passes _ U w l d c Hd Hc He), HG. simpl. rewrite Hv. simpl.
  exec.
  repeat (rewrite ?(fetched_heap Cluster), ?(update_same Cluster); simpl;
          rewrite ?Hd, ?Hc; simpl).
  rewrite HG. reflexivity.
Qed.

(** X21.  The cluster operations keep a valid builder valid: whatever the
    client answers, errors included, a builder that passes validation
    still passes it after Exists, after Create, and after Delete when
    Delete returns.  Errors of the cluster API are returned or dropped,
    never recorded in errorMsg. *)
Theorem cluster_operations_keep_the_builder_valid w l :
  passes (heap w l) = true ->
  (exists v w', Exists U (Some l) w = Ret v w' /\ passes (heap w' l) = true) /\
  (exists e w',
     Create U (Some l) w = Ret (Some l, e) w' /\ passes (heap w' l) = true) /\
  (forall e w', Delete U (Some l) w = Ret e w' -> passes (heap w' l) = true).
Proof.
  intro Hp. destruct (passes_fields _ _ Hp) as (d & c & Hd & Hc & He).
  destruct (Services_Get c (Namespace (Meta d)) (Name (Meta d)) (cluster w))
    as [[object gerr] cl1] eqn:HG.
  assert (Hf : passes (heap (fetched l c d w) l) = true).
  { rewrite (fetched_heap Cluster). unfold passes. simpl.
    now rewrite Hd, Hc, He. }
  split; [|split].
  - eexists; eexists. split; [apply (Exists_spec _ U w l d c Hd Hc He)|exact Hf].
  - destruct (Services_Create c (Namespace (Meta d)) (Some d) cl1)
      as [[created cerr] cl2] eqn:HCr.
    destruct (Create_valid w l d c Hd Hc He _ _ _ HG _ _ _ HCr)
      as (w' & HC & _ & _ & _ & _ & Hd' & Hc' & He' & _).
    eexists; exists w'. split; [exact HC|].
    exact (passes_intro _ d c Hd' Hc' He').
  - intros e w' HD.
    destruct (existsVerdict gerr) eqn:Hv.
    + destruct object as [o|].
      * destruct (Services_Delete c (Namespace (Meta d)) (Name (Meta o)) cl1)
          as [derr cl2] eqn:HDel.
        destruct (Delete_valid w l d c Hd Hc He _ _ _ HG Hv _ _ HDel)
          as (w2 & HD2 & _ & _ & _ & _ & Hd' & Hc' & He' & _).
        rewrite HD2 in HD. inversion HD; subst.
        exact (passes_intro _ d c Hd' Hc' He').
      * rewrite (Delete_without_object w l d c Hd Hc He _ _ HG Hv) in HD.
        discriminate.
    + rewrite (Delete_passes _ U w l d c Hd Hc He), HG in HD. simpl in HD.
      rewrite Hv in HD. simpl in HD. inversion HD; subst. exact Hf.
Qed.

End Further.

(** * Examples of the further properties *)






(** A chain that starts with WithAnnotation(nil): its error is the one
    left after two more mutators. *)
Lemma chain_keeps_the_first_error_witness :
  let w := webWorld (Some storeClient) in
  let w1 := after (call sampleUndefinedCrd (CallWithAnnotation None) (Some 0%nat)) w in
  errorMsg (heap w1 0%nat) = "Annotation can not be empty map" /\
  chain sampleUndefinedCrd
    [CallWithAnnotation None; CallWithNodePort;
     CallWithExternalTrafficPolicy ""] (Some 0%nat) w = Ret (Some 0%nat) w1.
Proof.
  intros w w1. split; [reflexivity|].
  apply (chain_keeps_the_first_error Store sampleUndefinedCrd w 0%nat
           (CallWithAnnotation None) w1 eq_refl);
    discriminate.
Defined.

(** WithNodePort twice on the Builder for [web]. *)
Lemma WithNodePort_idempotent_witness :
  sampleUndefinedCrd resourceCRD <> "" /\
  exists w1 w2,
    WithNodePort sampleUndefinedCrd (Some 0%nat) (webWorld (Some storeClient))
      = Ret (Some 0%nat) w1 /\
    WithNodePort sampleUndefinedCrd (Some 0%nat) w1 = Ret (Some 0%nat) w2 /\
    Definition_ (heap w2 0%nat) = Definition_ (heap w1 0%nat).
Proof.
  assert (HU : sampleUndefinedCrd resourceCRD <> "") by discriminate.
  split; [exact HU|].
  destruct (WithNodePort_idempotent Store sampleUndefinedCrd
              (webWorld (Some storeClient)) 0%nat HU)
    as (w1 & w2 & H1 & H2 & Hd & _).
  exists w1, w2. repeat split; assumption.
Defined.

(** The two orders of WithNodePort and WithExternalTrafficPolicy("Local"). *)
Lemma NodePort_and_ExternalTrafficPolicy_order_witness :
  exists w1 w2 d1 d2,
    chain sampleUndefinedCrd
      [CallWithNodePort; CallWithExternalTrafficPolicy "Local"]
      (Some 0%nat) (webWorld (Some storeClient)) = Ret (Some 0%nat) w1 /\
    chain sampleUndefinedCrd
      [CallWithExternalTrafficPolicy "Local"; CallWithNodePort]
      (Some 0%nat) (webWorld (Some storeClient)) = Ret (Some 0%nat) w2 /\
    Definition_ (heap w1 0%nat) = Some d1 /\
    Definition_ (heap w2 0%nat) = Some d2 /\
    Type_ (Spec d1) = "LoadBalancer" /\
    Type_ (Spec d2) = "NodePort".
Proof.
  destruct (NodePort_and_ExternalTrafficPolicy_order Store sampleUndefinedCrd
              (webWorld (Some storeClient)) 0%nat webService httpPort []
              "Local" eq_refl eq_refl eq_refl eq_refl)
    as (w1 & w2 & d1 & d2 & H1 & H2 & Hd1 & Hd2 & _ & _ & Ht1 & Ht2 & _).
  exists w1, w2, d1, d2. repeat split; assumption.
Defined.



(** Pull with an empty name. *)
Lemma Pull_rejects_without_a_call_witness :
  exists w',
    Pull sampleUndefinedCrd (Some storeClient) "" "prod" runningCluster =
      Ret (None, Some (Pull_error "" "prod")) w' /\
    calls w' = [].
Proof.
  destruct (Pull_rejects_without_a_call Store sampleUndefinedCrd
              (Some storeClient) "" "prod" runningCluster (or_introl eq_refl))
    as (w' & HP & Hcall & _).
  exists w'. split; [exact HP|apply Hcall].
Defined.

(** Pull of a Service that does not run. *)
Lemma Pull_not_found_witness :
  exists w',
    Pull sampleUndefinedCrd (Some storeClient) "web" "prod" emptyWorld =
      Ret (None, Some (Pull_error "web" "prod")) w' /\
    calls w' = [CallGet "prod" "web"].
Proof.
  assert (Hn : "web" <> "") by discriminate.
  assert (Hns : "prod" <> "") by discriminate.
  destruct (Pull_not_found Store sampleUndefinedCrd storeClient "web" "prod"
              emptyWorld (APIError true "not found") None [] Hn Hns
              eq_refl eq_refl)
    as (w' & HP & Hcalls & _).
  exists w'. split; assumption.
Defined.

(** Pull of a Service that runs. *)
Lemma Pull_found_witness :
  exists w',
    Pull sampleUndefinedCrd (Some storeClient) "web" "prod" runningCluster =
      Ret (Some 0%nat, None) w' /\
    Definition_ (heap w' 0%nat) = Some webService /\
    Object (heap w' 0%nat) = Some webService /\
    passes (heap w' 0%nat) = true.
Proof.
  assert (Hn : "web" <> "") by discriminate.
  assert (Hns : "prod" <> "") by discriminate.
  destruct (Pull_found Store sampleUndefinedCrd storeClient "web" "prod"
              runningCluster (Some webService) None [webService] Hn Hns
              eq_refl eq_refl)
    as (w' & HP & _ & _ & _ & Hd & Ho & _ & _ & Hp).
  exists w'. repeat split; try assumption. apply Hp. discriminate.
Defined.

(** Pull through a client whose Get times out. *)
Lemma Pull_survives_a_failed_Get_witness :
  sampleUndefinedCrd resourceCRD <> "" /\
  exists w1 w2,
    Pull sampleUndefinedCrd (Some timeoutClient) "web" "prod" runningCluster =
      Ret (Some 0%nat, None) w1 /\
    Definition_ (heap w1 0%nat) = None /\
    Create sampleUndefinedCrd (Some 0%nat) w1 =
      Ret (Some 0%nat,
           Some (Errorf "can not redefine the undefined Service" [])) w2.
Proof.
  assert (HU : sampleUndefinedCrd resourceCRD <> "") by discriminate.
  assert (Hn : "web" <> "") by discriminate.
  assert (Hns : "prod" <> "") by discriminate.
  split; [exact HU|].
  destruct (Pull_survives_a_failed_Get Store sampleUndefinedCrd timeoutClient
              "web" "prod" runningCluster (APIError false "timeout")
              [webService] HU Hn Hns eq_refl eq_refl)
    as (w1 & w2 & HP & Hd & HC & _).
  exists w1, w2. repeat split; assumption.
Defined.

(** Create on a nil builder. *)
Lemma Exists_and_Create_never_panic_witness :
  sampleUndefinedCrd resourceCRD <> "" /\
  exists e w',
    Create sampleUndefinedCrd None emptyWorld = Ret (None, e) w'.
Proof.
  assert (HU : sampleUndefinedCrd resourceCRD <> "") by discriminate.
  split; [exact HU|].
  destruct (proj2 (Exists_and_Create_never_panic Store sampleUndefinedCrd
                     None emptyWorld HU))
    as (e & w' & cs & HC & _).
  exists e, w'. exact HC.
Defined.

(** Delete through a client whose Get times out. *)
Lemma Delete_panics_exactly_without_object_witness :
  sampleUndefinedCrd resourceCRD <> "" /\
  Delete sampleUndefinedCrd (Some 0%nat) (runningWorld (Some timeoutClient))
    = Panic.
Proof.
  assert (HU : sampleUndefinedCrd resourceCRD <> "") by discriminate.
  split; [exact HU|].
  apply (proj2 (Delete_panics_exactly_without_object Store sampleUndefinedCrd
                  (Some 0%nat) (runningWorld (Some timeoutClient)) HU)).
  exists 0%nat, webService, timeoutClient. repeat split.
Defined.

(** Delete, then Create, of a Service that runs. *)
Lemma Create_after_Delete_witness :
  let w := runningWorld (Some storeClient) in
  exists w1 w2,
    Delete sampleUndefinedCrd (Some 0%nat) w = Ret None w1 /\
    Create sampleUndefinedCrd (Some 0%nat) w1 = Ret (Some 0%nat, None) w2 /\
    calls w2 = [CallGet "prod" "web"; CallDelete "prod" "web";
                CallGet "prod" "web"; CallCreate "prod" (Some webService)] /\
    cluster w2 = [webService] /\
    Object (heap w2 0%nat) = Some webService.
Proof.
  intro w.
  destruct (Create_after_Delete Store sampleUndefinedCrd w 0%nat webService
              storeClient webService None [webService] [] None
              (APIError true "not found") [] (Some webService) None
              [webService]
              eq_refl eq_refl eq_refl eq_refl eq_refl eq_refl eq_refl eq_refl
              eq_refl)
    as (w1 & w2 & HD & _ & HC & Hcalls & Hcl & _ & Ho).
  exists w1, w2. repeat split; assumption.
Defined.

(** A port above 65535 makes its way into the NodePort. *)
Lemma DefineServicePort_NewBuilder_WithNodePort_witness :
  exists sp w1 w2 d,
    DefineServicePort 70000 8080 "TCP" = (Some sp, None) /\
    NewBuilder (Some storeClient) "web" "prod" None sp emptyWorld
      = Ret (Some 0%nat) w1 /\
    WithNodePort sampleUndefinedCrd (Some 0%nat) w1 = Ret (Some 0%nat) w2 /\
    Definition_ (heap w2 0%nat) = Some d /\
    Type_ (Spec d) = "NodePort" /\
    map NodePort (Ports (Spec d)) = [70000].
Proof.
  assert (Hn : "web" <> "") by discriminate.
  assert (Hns : "prod" <> "") by discriminate.
  destruct (DefineServicePort_NewBuilder_WithNodePort Store sampleUndefinedCrd
              storeClient "web" "prod" None 70000 8080 "TCP" emptyWorld Hn Hns)
    as (sp & w1 & w2 & d & HD & HN & HW & _ & _ & Hd & _ & _ & Ht & HP).
  exists sp, w1, w2, d. repeat (split; [assumption|]).
  rewrite HP. reflexivity.
Defined.


(** Create through a client that cannot reach the server: the builder is
    as valid after as before. *)
Lemma cluster_operations_keep_the_builder_valid_witness :
  let w := webWorld (Some unreachableClient) in
  passes (heap w 0%nat) = true /\
  exists e w',
    Create sampleUndefinedCrd (Some 0%nat) w = Ret (Some 0%nat, e) w' /\
    passes (heap w' 0%nat) = true.
Proof.
  intro w.
  assert (Hp : passes (heap w 0%nat) = true) by reflexivity.
  split; [exact Hp|].
  exact (proj1 (proj2 (cluster_operations_keep_the_builder_valid Store
                         sampleUndefinedCrd w 0%nat Hp))).
Defined.
